(** * Purview wrapper: a shallow embedding of [packages/api/src/purview-wrapper.ts]

    The module is a set of HTTP client helpers.  Its functions read the
    process environment, the wall clock and [Math.random], issue requests
    through [fetch] and write to logging sinks.  All of that is modelled by
    an explicit platform (the oracles the code reads) and a state (how far
    each oracle has been consumed, and the trace of what the code did),
    threaded through a small state-and-exception monad. *)

From Stdlib Require Import String Ascii List ZArith NArith QArith Bool Lia.
From Stdlib Require Import DecimalString HexadecimalString.
Import ListNotations.

Local Open Scope string_scope.
Local Open Scope Z_scope.

(* ================================================================== *)
(** ** JavaScript string primitives used by the module *)
(* ================================================================== *)

Module Js.

(** The double-quote character. *)
Definition dquote : ascii := "034"%char.
Definition slash : ascii := "/"%char.

Definition is_slash (c : ascii) : bool := Ascii.eqb c slash.

(** [true] when every character of [s] is a slash. *)
Fixpoint all_slashes (s : string) : bool :=
  match s with
  | EmptyString => true
  | String c r => is_slash c && all_slashes r
  end.

(** [s.replace(/\/+$/, '')].  The pattern has no [g] or [m] flag, so the
    first match from the left is replaced and [$] is the end of the input:
    the matcher tries every start position in turn and succeeds at the
    first one from which a non-empty run of slashes reaches the end. *)
Fixpoint replace_trailing_slashes (s : string) : string :=
  match s with
  | EmptyString => EmptyString
  | String c r =>
      if is_slash c && all_slashes r then EmptyString
      else String c (replace_trailing_slashes r)
  end.

(** The longest run of slashes at the head of [s] is dropped. *)
Fixpoint drop_slashes (s : string) : string :=
  match s with
  | EmptyString => EmptyString
  | String c r => if is_slash c then drop_slashes r else s
  end.

(** [s.replace(/^\/+/, '')]: [^] only matches at position 0, where the
    greedy [\/+] takes every leading slash. *)
Definition replace_leading_slashes (s : string) : string := drop_slashes s.

(** [xs.join(sep)] on an array of strings. *)
Fixpoint join (sep : string) (xs : list string) : string :=
  match xs with
  | [] => ""
  | [x] => x
  | x :: rest => x ++ sep ++ join sep rest
  end.

(** A JavaScript string used as a condition: only the empty string is falsy. *)
Definition truthy (s : string) : bool :=
  match s with EmptyString => false | _ => true end.

(** A possibly absent string ([undefined] or [null]) used as a condition. *)
Definition truthy_opt (o : option string) : bool :=
  match o with None => false | Some s => truthy s end.

(** [o || dflt] for a possibly absent string [o]. *)
Definition or_else (o : option string) (dflt : string) : string :=
  match o with
  | Some s => if truthy s then s else dflt
  | None => dflt
  end.

(** The last character of a string, if any. *)
Fixpoint last_char (s : string) : option ascii :=
  match s with
  | EmptyString => None
  | String c EmptyString => Some c
  | String _ r => last_char r
  end.

(** [n] slashes in a row. *)
Fixpoint slashes (n : nat) : string :=
  match n with O => "" | S k => String slash (slashes k) end.

(** Numbers.  A JavaScript number whose value is an integer is given by
    that value; what follows is IEEE double arithmetic on such numbers,
    for magnitudes below 2^1024. *)
Definition two53 : Z := 9007199254740992.

(** [Number.isSafeInteger(n)]. *)
Definition safe_integer (n : Z) : Prop := - two53 < n < two53.

(** The double nearest to an integer, ties going to the even significand:
    integers up to 2^53 are doubles; above, only 53 leading bits are kept. *)
Definition to_double (z : Z) : Z :=
  let a := Z.abs z in
  if a <=? two53 then z
  else
    let e := Z.log2 a - 52 in
    let q := Z.shiftr a e in
    let r := a - Z.shiftl q e in
    let half := Z.shiftl 1 (e - 1) in
    let q' := if (half <? r) || ((r =? half) && Z.odd q) then q + 1 else q in
    Z.sgn z * Z.shiftl q' e.

(** [a + b] on numbers: the exact sum, rounded. *)
Definition plus (a b : Z) : Z := to_double (a + b).

(** The decimal digits of an integer, with a minus sign when negative. *)
Definition decimal (n : Z) : string :=
  DecimalString.NilZero.string_of_int (Z.to_int n).

(** A digit string without its trailing zeros. *)
Fixpoint strip_zeros (s : string) : string :=
  match s with
  | EmptyString => EmptyString
  | String c r =>
      match strip_zeros r with
      | EmptyString => if Ascii.eqb c "0" then EmptyString else String c EmptyString
      | r' => String c r'
      end
  end.

(** The decimal with the fewest significant digits that still reads back
    as the double [a] (0 < a), the closest one if there are several: with
    [k] digits it is one of the two multiples of 10^(n-k) around [a],
    [n] being the number of digits of [a]. *)
Fixpoint shortest (fuel : nat) (k : Z) (a n : Z) : Z :=
  match fuel with
  | O => a
  | S f =>
      let u := 10 ^ (n - k) in
      let lo := (a / u) * u in
      let hi := lo + u in
      let lo_ok := to_double lo =? a in
      let hi_ok := to_double hi =? a in
      if lo_ok && hi_ok then
        if a - lo <? hi - a then lo
        else if hi - a <? a - lo then hi
        else if Z.even (a / u) then lo else hi
      else if lo_ok then lo
      else if hi_ok then hi
      else shortest f (k + 1) a n
  end.

(** The text of a positive double above 2^53: its shortest decimal, written
    out in full below 10^21 and with an exponent from there on. *)
Definition render_large (a : Z) : string :=
  let n := Z.of_nat (String.length (decimal a)) in
  let c := shortest (Z.to_nat n) 1 a n in
  let text := decimal c in
  let m := Z.of_nat (String.length text) in
  if m <=? 21 then text
  else
    match strip_zeros text with
    | EmptyString => text
    | String d EmptyString => String d ("e+" ++ decimal (m - 1))
    | String d rest => String d ("." ++ rest ++ "e+" ++ decimal (m - 1))
    end.

(** [n.toString(10)] for an integral number, as template literals and
    [JSON.stringify] use it: up to 2^53 every digit is written; above,
    the shortest decimal that reads back as the same double. *)
Definition Number_toString (n : Z) : string :=
  if Z.abs n <=? two53 then decimal n
  else if n <? 0 then String "-"%char (render_large (- to_double n))
  else render_large (to_double n).

(** Property keys that are array indices: the canonical decimal of an
    integer below 2^32 - 1. *)
Fixpoint digits_value (s : string) (acc : N) : option N :=
  match s with
  | EmptyString => Some acc
  | String c r =>
      let d := N_of_ascii c in
      if ((48 <=? d) && (d <=? 57))%N then digits_value r (acc * 10 + (d - 48))%N
      else None
  end.

Definition array_index (key : string) : option N :=
  match key with
  | EmptyString => None
  | String c r =>
      if Ascii.eqb c "0" && negb (String.eqb r EmptyString) then None
      else
        match digits_value key 0%N with
        | Some n => if (n <=? 4294967294)%N then Some n else None
        | None => None
        end
  end.

(** [n.toString(16)] for an integral number: lower-case digits, a leading
    minus sign for a negative one. *)
Definition Number_toString16 (n : Z) : string :=
  if n <? 0
  then String "-"%char
         (HexadecimalString.NilZero.string_of_uint (N.to_hex_uint (Z.to_N (- n))))
  else HexadecimalString.NilZero.string_of_uint (N.to_hex_uint (Z.to_N n)).

(** [Math.trunc] on a number given as a rational: rounding towards zero. *)
Definition Math_trunc (q : Q) : Z := Z.quot (Qnum q) (Zpos (Qden q)).

(** [a % b] on integral numbers: the sign of the result is the dividend's. *)
Definition rem (a b : Z) : Z := Z.rem a b.

(** Decimal rendering of a non-negative integer, left-padded with zeros
    to [width] characters. *)
Fixpoint zeros (n : nat) : string :=
  match n with O => "" | S k => String "0"%char (zeros k) end.

Definition pad (width : nat) (n : Z) : string :=
  let s := Number_toString n in
  zeros (width - String.length s) ++ s.

(** The civil date of a day number counted from 1970-01-01, in the
    proleptic Gregorian calendar (ECMAScript's YearFromTime, MonthFromTime
    and DateFromTime, computed era by era of 400 years). *)
Definition civil_from_days (day : Z) : Z * Z * Z :=
  let z := day + 719468 in
  let era := z / 146097 in
  let doe := z - era * 146097 in
  let yoe := (doe - doe / 1460 + doe / 36524 - doe / 146096) / 365 in
  let doy := doe - (365 * yoe + yoe / 4 - yoe / 100) in
  let mp := (5 * doy + 2) / 153 in
  let d := doy - (153 * mp + 2) / 5 + 1 in
  let m := if mp <? 10 then mp + 3 else mp - 9 in
  let y := yoe + era * 400 + (if m <=? 2 then 1 else 0) in
  (y, m, d).

(** [new Date(t).toISOString()] for a time value [t] in milliseconds since
    the epoch: [YYYY-MM-DDTHH:mm:ss.sssZ], with a signed six-digit year
    outside 0..9999. *)
Definition toISOString (t : Z) : string :=
  let day := t / 86400000 in
  let ms := t mod 86400000 in
  let '(y, m, d) := civil_from_days day in
  let year :=
    if (0 <=? y) && (y <=? 9999) then pad 4 y
    else if y <? 0 then String "-"%char (pad 6 (- y))
    else String "+"%char (pad 6 y) in
  year ++ "-" ++ pad 2 m ++ "-" ++ pad 2 d ++ "T"
       ++ pad 2 (ms / 3600000) ++ ":" ++ pad 2 ((ms / 60000) mod 60) ++ ":"
       ++ pad 2 ((ms / 1000) mod 60) ++ "." ++ pad 3 (ms mod 1000) ++ "Z".

End Js.

(* ================================================================== *)
(** ** JSON documents *)
(* ================================================================== *)

#[local] Set Warnings "-register-all".

(** Object members keep their insertion order, as [JSON.stringify] and
    [Object.entries] observe it. *)
Inductive JSON : Type :=
| JNull
| JBool (b : bool)
| JNum (n : Z)
| JStr (s : string)
| JArr (items : list JSON)
| JObj (members : list (string * JSON)).

Module Json.

(** [o[key]] on an object; [None] is [undefined]. *)
Fixpoint assoc (key : string) (members : list (string * JSON)) : option JSON :=
  match members with
  | [] => None
  | (k, v) :: rest => if String.eqb k key then Some v else assoc key rest
  end.

Definition member (key : string) (j : JSON) : option JSON :=
  match j with JObj ms => assoc key ms | _ => None end.

Definition item (i : nat) (j : JSON) : option JSON :=
  match j with JArr xs => nth_error xs i | _ => None end.

(** One step of a property path: [.key] or [[i]]. *)
Inductive step := Key (k : string) | Idx (i : nat).

Definition get1 (st : step) (j : JSON) : option JSON :=
  match st with Key k => member k j | Idx i => item i j end.

(** [j.a.b[0].c]: [None] as soon as a step is missing. *)
Fixpoint path (p : list step) (j : JSON) : option JSON :=
  match p with
  | [] => Some j
  | st :: rest => match get1 st j with Some v => path rest v | None => None end
  end.

Definition hex_digit (n : N) : string :=
  HexadecimalString.NilZero.string_of_uint (N.to_hex_uint n).

(** The escape of one character inside a JSON string literal. *)
Definition escape_char (c : ascii) : string :=
  let n := N_of_ascii c in
  if Ascii.eqb c Js.dquote then String "\"%char (String Js.dquote "")
  else if Ascii.eqb c "\"%char then "\\"
  else if (n =? 8)%N then "\b"
  else if (n =? 9)%N then "\t"
  else if (n =? 10)%N then "\n"
  else if (n =? 12)%N then "\f"
  else if (n =? 13)%N then "\r"
  else if (n <? 32)%N then "\u00" ++ hex_digit (n / 16) ++ hex_digit (n mod 16)
  else String c "".

Fixpoint escape (s : string) : string :=
  match s with
  | EmptyString => ""
  | String c r => escape_char c ++ escape r
  end.

Definition quote (s : string) : string :=
  String Js.dquote (escape s) ++ String Js.dquote "".

(** [JSON.stringify(j)] without indentation. *)
Fixpoint stringify (j : JSON) : string :=
  match j with
  | JNull => "null"
  | JBool true => "true"
  | JBool false => "false"
  | JNum n => Js.Number_toString n
  | JStr s => quote s
  | JArr xs => "[" ++ Js.join "," (map stringify xs) ++ "]"
  | JObj ms =>
      "{" ++ Js.join "," (map (fun kv => quote (fst kv) ++ ":" ++ stringify (snd kv)) ms)
          ++ "}"
  end.

End Json.

(* ================================================================== *)
(** ** The HTTP transport ([node-fetch]) *)
(* ================================================================== *)

(** A thrown JavaScript error object: its [name] and its [message]. *)
Inductive Error := MkError (name : string) (message : string).

(** [new Error(message)]. *)
Definition new_Error (message : string) : Error := MkError "Error" message.

(** The [init] argument of [fetch] together with the URL. *)
Record Request := {
  url : string;
  method : string;
  req_headers : list (string * string);
  req_body : option string
}.

(** Response headers as [Headers.entries()] yields them: lower-case names,
    one entry per name. *)
Definition Headers := list (string * string).

Module Http.

Definition to_lower_char (c : ascii) : ascii :=
  let n := N_of_ascii c in
  if ((65 <=? n) && (n <=? 90))%N then ascii_of_N (n + 32) else c.

Fixpoint to_lower (s : string) : string :=
  match s with
  | EmptyString => ""
  | String c r => String (to_lower_char c) (to_lower r)
  end.

Fixpoint lookup (key : string) (hs : list (string * string)) : option string :=
  match hs with
  | [] => None
  | (k, v) :: rest => if String.eqb k key then Some v else lookup key rest
  end.

(** [headers.get(name)]: names are matched without case; [None] is [null]. *)
Definition get (name : string) (hs : Headers) : option string :=
  lookup (to_lower name) hs.

(** [obj[key] = value] on an ordinary object, as the list of its own
    properties in creation order: an existing key keeps its place. *)
Fixpoint define (key : string) (value : JSON) (o : list (string * JSON))
  : list (string * JSON) :=
  match o with
  | [] => [(key, value)]
  | (k, v) :: rest =>
      if String.eqb k key then (k, value) :: rest
      else (k, v) :: define key value rest
  end.

(** An array-index property put in its place among those already sorted. *)
Fixpoint place (n : N) (p : string * JSON) (sorted : list (N * (string * JSON)))
  : list (N * (string * JSON)) :=
  match sorted with
  | [] => [(n, p)]
  | (m, q) :: rest =>
      if (n <? m)%N then (n, p) :: sorted else (m, q) :: place n p rest
  end.

(** The order in which an object lists its own properties: array-index keys
    first, in ascending numeric order, then the others as created. *)
Fixpoint indexed (o : list (string * JSON)) : list (N * (string * JSON)) :=
  match o with
  | [] => []
  | p :: rest =>
      match Js.array_index (fst p) with
      | Some n => place n p (indexed rest)
      | None => indexed rest
      end
  end.

Definition named (o : list (string * JSON)) : list (string * JSON) :=
  filter (fun p => match Js.array_index (fst p) with Some _ => false | None => true end) o.

Definition own_properties (o : list (string * JSON)) : list (string * JSON) :=
  (map snd (indexed o) ++ named o)%list.

(** [Object.fromEntries(headers.entries())], its members in the order
    [JSON.stringify] writes them. *)
Definition fromEntries (hs : Headers) : JSON :=
  JObj (own_properties
          (fold_left (fun o kv => define (fst kv) (JStr (snd kv)) o) hs [])).

(** The header an outgoing request carries under exactly this name. *)
Definition sent_header (name : string) (r : Request) : option string :=
  lookup name (req_headers r).

End Http.

(** What the transport hands back once a request resolves.  [text] is what
    [response.text()] yields, [json] what [response.json()] yields: the
    parsed body, or the error it rejects with when the body is not JSON. *)
Record Response := {
  status : Z;
  headers : Headers;
  text : string;
  json : Error + JSON
}.

(** [response.ok]: the status is in the range 200-299. *)
Definition ok (r : Response) : bool := (200 <=? status r) && (status r <? 300).

Inductive FetchResult :=
| Rejected (e : Error)        (* network failure: the promise rejects *)
| Resolved (r : Response).

(* ================================================================== *)
(** ** Platform, state and trace *)
(* ================================================================== *)

(** The logging collaborator of the Azure Functions host. *)
Record InvocationContext := { invocationId : string }.

Inductive Sink :=
| Console_error
| Context_log (c : InvocationContext)
| Context_error (c : InvocationContext).

Inductive LogArg := LStr (s : string) | LErr (e : Error).

(** What a run does to the outside world, in order.  [EProcessContent]
    marks the entry into [invokeProcessContentApi] with its arguments: one
    content-processing submission. *)
Inductive Event :=
| ELog (sink : Sink) (args : list LogArg)
| EFetch (req : Request)
| EProcessContent (accessToken : string) (etag : option string) (requestBody : JSON).

(** Everything the code reads from outside.  [Math_random n] is the [n]-th
    draw of [Math.random()], [Date_now n] the [n]-th reading of the wall
    clock in milliseconds since the epoch, [network n req] the fate of the
    [n]-th request when it is [req]. *)
Record Platform := {
  env : string -> option string;
  Math_random : nat -> Q;
  Date_now : nat -> Z;
  network : nat -> Request -> FetchResult
}.

(** How many draws, clock readings and requests have been consumed. *)
Record State := {
  rand_pos : nat;
  clock_pos : nat;
  fetch_pos : nat
}.

Definition initial : State := {| rand_pos := 0; clock_pos := 0; fetch_pos := 0 |}.

Inductive Outcome (A : Type) :=
| Returned (a : A)
| Thrown (e : Error).
Arguments Returned {A} a.
Arguments Thrown {A} e.

(** The result of running a piece of code from a state. *)
Record Run (A : Type) := {
  outcome : Outcome A;
  final : State;
  events : list Event
}.
Arguments outcome {A} r.
Arguments final {A} r.
Arguments events {A} r.

(** Code that may read the platform, advance the state, emit events and
    throw: an [async] function awaited to completion is run the same way. *)
Definition M (A : Type) : Type := Platform -> State -> Run A.

Definition ret {A} (a : A) : M A :=
  fun _ s => {| outcome := Returned a; final := s; events := [] |}.

Definition throw {A} (e : Error) : M A :=
  fun _ s => {| outcome := Thrown e; final := s; events := [] |}.

Definition bind {A B} (m : M A) (f : A -> M B) : M B :=
  fun P s =>
    let r := m P s in
    match outcome r with
    | Returned a =>
        let r' := f a P (final r) in
        {| outcome := outcome r'; final := final r'; events := events r ++ events r' |}
    | Thrown e => {| outcome := Thrown e; final := final r; events := events r |}
    end.

(** [try { body } catch (error) { handler }]. *)
Definition try_catch {A} (body : M A) (handler : Error -> M A) : M A :=
  fun P s =>
    let r := body P s in
    match outcome r with
    | Returned _ => r
    | Thrown e =>
        let r' := handler e P (final r) in
        {| outcome := outcome r'; final := final r'; events := events r ++ events r' |}
    end.

Declare Scope js_scope.
Delimit Scope js_scope with js.
Notation "x <- m ;; k" := (bind m (fun x => k))
  (at level 61, m at next level, right associativity) : js_scope.
Notation "m ;; k" := (bind m (fun _ => k))
  (at level 61, right associativity) : js_scope.
Local Open Scope js_scope.

(** [if (c) { body }] for a body run for its effects. *)
Definition when (c : bool) (body : M unit) : M unit :=
  if c then body else ret tt.

Definition emit (e : Event) : M unit :=
  fun _ s => {| outcome := Returned tt; final := s; events := [e] |}.

Definition log (sink : Sink) (args : list LogArg) : M unit := emit (ELog sink args).

(** [process.env[name]]. *)
Definition process_env (name : string) : M (option string) :=
  fun P s => {| outcome := Returned (env P name); final := s; events := [] |}.

(** [Math.random()]. *)
Definition random : M Q :=
  fun P s =>
    {| outcome := Returned (Math_random P (rand_pos s));
       final := {| rand_pos := S (rand_pos s); clock_pos := clock_pos s;
                   fetch_pos := fetch_pos s |};
       events := [] |}.

(** [new Date()], as its time value. *)
Definition new_Date : M Z :=
  fun P s =>
    {| outcome := Returned (Date_now P (clock_pos s));
       final := {| rand_pos := rand_pos s; clock_pos := S (clock_pos s);
                   fetch_pos := fetch_pos s |};
       events := [] |}.

(** [await fetch(url, init)]. *)
Definition fetch (req : Request) : M Response :=
  fun P s =>
    {| outcome := match network P (fetch_pos s) req with
                  | Rejected e => Thrown e
                  | Resolved r => Returned r
                  end;
       final := {| rand_pos := rand_pos s; clock_pos := clock_pos s;
                   fetch_pos := S (fetch_pos s) |};
       events := [EFetch req] |}.

(** [await response.text()]. *)
Definition response_text (r : Response) : M string := ret (text r).

(** [await response.json()]. *)
Definition response_json (r : Response) : M JSON :=
  match json r with
  | inl e => throw e
  | inr j => ret j
  end.

(* ================================================================== *)
(** ** The functions of [purview-wrapper.ts] *)
(* ================================================================== *)

(** What [invokeProtectionScopeApi] resolves to. *)
Record ScopeResult := { body : JSON; etag : option string }.

(** What [invokeProcessContentApi] resolves to. *)
Record ContentResult := { content_body : string; content_headers : Headers }.

Definition missing_purview_base_url : Error :=
  new_Error "PURVIEW_BASE_URL is not defined in the environment variables.".

Definition protectionScopePath : string :=
  "me/dataSecurityAndGovernance/protectionScopes/compute".

Definition processContentPath : string :=
  "me/dataSecurityAndGovernance/processContent".

(** The template literal both Purview clients build their URL with. *)
Definition apiUrl (purviewBaseUrl path : string) : string :=
  Js.replace_trailing_slashes purviewBaseUrl ++ "/" ++ Js.replace_leading_slashes path.

Definition protectionScopeRequest (accessToken purviewBaseUrl : string) : Request :=
  {| url := apiUrl purviewBaseUrl protectionScopePath;
     method := "POST";
     req_headers := [("Authorization", "Bearer " ++ accessToken);
                     ("Content-Type", "application/json")];
     req_body := Some (Json.stringify (JObj [])) |}.

Definition invokeProtectionScopeApi (accessToken : string) : M ScopeResult :=
  try_catch
    (purviewBaseUrl <- process_env "PURVIEW_BASE_URL" ;;
     match purviewBaseUrl with
     | Some purviewBaseUrl =>
         if negb (Js.truthy purviewBaseUrl) then throw missing_purview_base_url
         else
           response <- fetch (protectionScopeRequest accessToken purviewBaseUrl) ;;
           if negb (ok response) then
             errorText <- response_text response ;;
             throw (new_Error ("API call failed with status "
                                 ++ Js.Number_toString (status response) ++ ": "
                                 ++ errorText))
           else
             let etag := Http.get "etag" (headers response) in
             body <- response_json response ;;
             ret {| body := body; etag := etag |}
     | None => throw missing_purview_base_url
     end)
    (fun error =>
       log Console_error [LStr "Error invoking API:"; LErr error] ;;
       throw error).

Definition default_graph_base_url : string := "https://graph.microsoft.com/v1.0".

(** [configured?.replace(/\/+$/, '') || 'https://graph.microsoft.com/v1.0'] for
    the value [configured] of [process.env.GRAPH_BASE_URL]. *)
Definition graphBaseUrlOf (configured : option string) : string :=
  Js.or_else (option_map Js.replace_trailing_slashes configured) default_graph_base_url.

Definition graphRequest (accessToken url : string) : Request :=
  {| url := url;
     method := "GET";
     req_headers := [("Authorization", "Bearer " ++ accessToken);
                     ("Accept", "application/json");
                     ("User-Agent", "Purview-API-Sample")];
     req_body := None |}.

Definition userRightsForLablesUrl (graphBaseUrl : string) : string :=
  graphBaseUrl
    ++ "/security/dataSecurityAndGovernance/sensitivityLabels?$expand=rights,sublabels".

Definition invokeUserRightsForLables (accessToken : string) (context : InvocationContext)
  : M string :=
  try_catch
    (configured <- process_env "GRAPH_BASE_URL" ;;
     let graphBaseUrl := graphBaseUrlOf configured in
     let url := userRightsForLablesUrl graphBaseUrl in
     log (Context_log context) [LStr ("invokeUserRightsForLables: " ++ url)] ;;
     response <- fetch (graphRequest accessToken url) ;;
     if negb (ok response) then
       errorText <- response_text response ;;
       throw (new_Error ("LabelInfo call failed - "
                           ++ Js.Number_toString (status response) ++ ": " ++ errorText))
     else
       body <- response_text response ;;
       log (Context_log context) [LStr "Graph label endpoint response:"; LStr body] ;;
       ret body)
    (fun error =>
       log (Context_error context) [LStr "Error retrieving label info:"; LErr error] ;;
       throw error).

Definition userRightsForSubLablesUrl (graphBaseUrl labelId : string) : string :=
  graphBaseUrl ++ "/security/dataSecurityAndGovernance/sensitivityLabels/" ++ labelId
    ++ "/rights".

Definition invokeUserRightsForSubLables (accessToken labelId : string)
  (context : InvocationContext)
  : M string :=
  try_catch
    (configured <- process_env "GRAPH_BASE_URL" ;;
     let graphBaseUrl := graphBaseUrlOf configured in
     let url := userRightsForSubLablesUrl graphBaseUrl labelId in
     log (Context_log context) [LStr ("invokeUserRightsForSubLables: " ++ url)] ;;
     response <- fetch (graphRequest accessToken url) ;;
     if negb (ok response) then
       errorText <- response_text response ;;
       throw (new_Error ("LabelInfo call failed - "
                           ++ Js.Number_toString (status response) ++ ": " ++ errorText))
     else
       body <- response_text response ;;
       log (Context_log context) [LStr "Graph label endpoint response:"; LStr body] ;;
       ret body)
    (fun error =>
       log (Context_error context) [LStr "Error retrieving label info:"; LErr error] ;;
       throw error).

(** [labelids.map((id) => `"${id}"`).join(',')]. *)
Definition idsSegment (labelids : list string) : string :=
  Js.join "," (map (fun id => String Js.dquote id ++ String Js.dquote "") labelids).

Definition labelInheritanceUrl (graphBaseUrl : string) (labelids : list string)
  : string :=
  graphBaseUrl ++ "/security/dataSecurityAndGovernance/sensitivityLabels/computeInheritance(labelIds=["
       ++ idsSegment labelids
       ++ "],locale='en-US',contentFormats=[" ++ String Js.dquote "File"
       ++ String Js.dquote "])".

Definition invokeLabelInheritance (accessToken : string) (labelids : list string)
  (context : InvocationContext)
  : M string :=
  try_catch
    (configured <- process_env "GRAPH_BASE_URL" ;;
     let graphBaseUrl := graphBaseUrlOf configured in
     let url := labelInheritanceUrl graphBaseUrl labelids in
     log (Context_log context) [LStr ("invokeLabelInheritance: " ++ url)] ;;
     response <- fetch (graphRequest accessToken url) ;;
     if negb (ok response) then
       errorText <- response_text response ;;
       throw (new_Error ("LabelInfo call failed - "
                           ++ Js.Number_toString (status response) ++ ": " ++ errorText))
     else
       body <- response_text response ;;
       log (Context_log context) [LStr "invokeUserRightsForLables response:"; LStr body] ;;
       ret body)
    (fun error =>
       log (Context_error context) [LStr "Error retrieving label info:"; LErr error] ;;
       throw error).

(** The [etag] parameter is typed [string], but callers hand over what
    [invokeProtectionScopeApi] returned, which is [null] when the header
    was absent: [None] stands for [null] or [undefined]. *)
Definition processContentRequest (accessToken : string) (etag : option string)
  (purviewBaseUrl : string) (requestBody : JSON) : Request :=
  {| url := apiUrl purviewBaseUrl processContentPath;
     method := "POST";
     req_headers := [("Authorization", "Bearer " ++ accessToken);
                     ("Content-Type", "application/json");
                     ("If-None-Match", Js.or_else etag "")];
     req_body := Some (Json.stringify requestBody) |}.

Definition invokeProcessContentApi (accessToken : string) (etag : option string)
  (requestBody : JSON) : M ContentResult :=
  emit (EProcessContent accessToken etag requestBody) ;;
  try_catch
    (purviewBaseUrl <- process_env "PURVIEW_BASE_URL" ;;
     match purviewBaseUrl with
     | Some purviewBaseUrl =>
         if negb (Js.truthy purviewBaseUrl) then throw missing_purview_base_url
         else
           response <- fetch (processContentRequest accessToken etag purviewBaseUrl
                                requestBody) ;;
           if negb (ok response) then
             errorText <- response_text response ;;
             throw (new_Error ("API call failed with status "
                                 ++ Js.Number_toString (status response) ++ ": "
                                 ++ errorText))
           else
             body <- response_text response ;;
             ret {| content_body := body; content_headers := headers response |}
     | None => throw missing_purview_base_url
     end)
    (fun error =>
       log Console_error [LStr "Error invoking Process Content API:"; LErr error] ;;
       throw error).

Definition template : string := "xxxxxxxx-xxxx-4xxx-yxxx-xxxxxxxxxxxx".

(** The body of [for (const char of template)], with [guid] the string
    built so far. *)
Fixpoint generateGuid_loop (chars : string) (guid : string) : M string :=
  match chars with
  | EmptyString => ret guid
  | String char rest =>
      if Ascii.eqb char "x" then
        u <- random ;;
        let r := Js.Math_trunc (u * 16) in
        generateGuid_loop rest (guid ++ Js.Number_toString16 r)
      else if Ascii.eqb char "y" then
        u <- random ;;
        let r := Js.rem (Js.Math_trunc (u * 16)) 4 + 8 in
        generateGuid_loop rest (guid ++ Js.Number_toString16 r)
      else
        generateGuid_loop rest (guid ++ String char "")
  end.

Definition generateGuid : M string := generateGuid_loop template "".

(** [new Date().toISOString()]. *)
Definition now_iso : M string :=
  t <- new_Date ;;
  ret (Js.toISOString t).

(** The object literal [constructProcessContentRequestBody] returns, as a
    function of the values its three effectful members evaluate to. *)
Definition processContentDocument
  (contentData name : string) (sequenceNo : Z) (correlationId activity applicationId : string)
  (identifier createdDateTime modifiedDateTime : string) : JSON :=
  JObj
    [("contentToProcess", JObj
       [("contentEntries", JArr
          [JObj
             [("@odata.type", JStr "microsoft.graph.processConversationMetadata");
              ("identifier", JStr identifier);
              ("content", JObj
                 [("@odata.type", JStr "microsoft.graph.textContent");
                  ("data", JStr contentData)]);
              ("name", JStr name);
              ("correlationId", JStr correlationId);
              ("sequenceNumber", JNum sequenceNo);
              ("isTruncated", JBool false);
              ("createdDateTime", JStr createdDateTime);
              ("modifiedDateTime", JStr modifiedDateTime)]]);
        ("activityMetadata", JObj [("activity", JStr activity)]);
        ("deviceMetadata", JObj
           [("deviceType", JStr "managed");
            ("operatingSystemSpecifications", JObj
               [("operatingSystemPlatform", JStr "Windows 11");
                ("operatingSystemVersion", JStr "10.0.26100.0")])]);
        ("protectedAppMetadata", JObj
           [("name", JStr name);
            ("version", JStr "1.0");
            ("applicationLocation", JObj
               [("@odata.type", JStr "microsoft.graph.policyLocationApplication");
                ("value", JStr applicationId)])]);
        ("integratedAppMetadata", JObj
           [("name", JStr name);
            ("version", JStr "1.0")])])].

(** The members of the literal are evaluated in source order: the
    identifier first, then the two timestamps, each with a clock reading
    of its own. *)
Definition constructProcessContentRequestBody
  (contentData name : string) (sequenceNo : Z) (correlationId activity applicationId : string)
  : M JSON :=
  identifier <- generateGuid ;;
  createdDateTime <- now_iso ;;
  modifiedDateTime <- now_iso ;;
  ret (processContentDocument contentData name sequenceNo correlationId activity
         applicationId identifier createdDateTime modifiedDateTime).

Definition enqueueOfflinePurviewTasksAsync
  (accessToken : string) (etag : option string)
  (name applicationId uploadTextMode downloadTextMode prompt response sessionId : string)
  (sequenceNo : Z) (context : InvocationContext) : M string :=
  try_catch
    (when (String.eqb uploadTextMode "evaluateOffline")
       (log (Context_log context) [LStr "Handling evaluateOffline logic for uploadText..."] ;;
        processContentRequestBody <-
          constructProcessContentRequestBody prompt name sequenceNo sessionId
            "uploadText" applicationId ;;
        log (Context_log context)
          [LStr "ProcessContent Request Body:For the uploadText API(prompt)"] ;;
        log (Context_log context) [LStr (Json.stringify processContentRequestBody)] ;;
        r <- invokeProcessContentApi accessToken etag processContentRequestBody ;;
        log (Context_log context)
          [LStr "Process Content API Response body for Prompt:"; LStr (content_body r)] ;;
        let headersObject := Http.fromEntries (content_headers r) in
        log (Context_log context)
          [LStr "Response Headers for Prompt:"; LStr (Json.stringify headersObject)]) ;;
     when (String.eqb downloadTextMode "evaluateOffline")
       (log (Context_log context)
          [LStr "Handling evaluateOffline logic for downloadText..."] ;;
        processContentRequestBodyForLLM <-
          constructProcessContentRequestBody response name (Js.plus sequenceNo 1) sessionId
            "downloadText" applicationId ;;
        log (Context_log context)
          [LStr "ProcessContent Request Body:For the downloadText API(Response)"] ;;
        log (Context_log context) [LStr (Json.stringify processContentRequestBodyForLLM)] ;;
        r <- invokeProcessContentApi accessToken etag processContentRequestBodyForLLM ;;
        log (Context_log context)
          [LStr "Process Content API Response body for Response:"; LStr (content_body r)] ;;
        let headersObject := Http.fromEntries (content_headers r) in
        log (Context_log context)
          [LStr "Process Content API Response Headers for Response:";
           LStr (Json.stringify headersObject)]) ;;
     ret "OK")
    (fun error =>
       log (Context_error context) [LStr "Error invoking ProcessContent API"; LErr error] ;;
       throw error).

(* ================================================================== *)
(** ** Observations on runs and documents *)
(* ================================================================== *)

(** The requests a run put on the network, in order. *)
Fixpoint fetches (evs : list Event) : list Request :=
  match evs with
  | [] => []
  | EFetch req :: rest => req :: fetches rest
  | _ :: rest => fetches rest
  end.

(** The content-processing submissions of a run, in order: the request
    body handed to [invokeProcessContentApi], with the etag it came with. *)
Fixpoint submissions (evs : list Event) : list (option string * JSON) :=
  match evs with
  | [] => []
  | EProcessContent _ etag requestBody :: rest => (etag, requestBody) :: submissions rest
  | _ :: rest => submissions rest
  end.

(** Where the fields the properties speak of sit in the returned document. *)
Definition entry0 : list Json.step :=
  [Json.Key "contentToProcess"; Json.Key "contentEntries"; Json.Idx 0].

Definition p_sequenceNumber := (entry0 ++ [Json.Key "sequenceNumber"])%list.
Definition p_correlationId := (entry0 ++ [Json.Key "correlationId"])%list.
Definition p_data := (entry0 ++ [Json.Key "content"; Json.Key "data"])%list.
Definition p_isTruncated := (entry0 ++ [Json.Key "isTruncated"])%list.
Definition p_entryType := (entry0 ++ [Json.Key "@odata.type"])%list.
Definition p_contentType := (entry0 ++ [Json.Key "content"; Json.Key "@odata.type"])%list.
Definition p_createdDateTime := (entry0 ++ [Json.Key "createdDateTime"])%list.
Definition p_modifiedDateTime := (entry0 ++ [Json.Key "modifiedDateTime"])%list.
Definition p_activity :=
  [Json.Key "contentToProcess"; Json.Key "activityMetadata"; Json.Key "activity"].
Definition p_locationType :=
  [Json.Key "contentToProcess"; Json.Key "protectedAppMetadata";
   Json.Key "applicationLocation"; Json.Key "@odata.type"].
Definition p_locationValue :=
  [Json.Key "contentToProcess"; Json.Key "protectedAppMetadata";
   Json.Key "applicationLocation"; Json.Key "value"].

Definition is_string (expected : string) (v : option JSON) : bool :=
  match v with Some (JStr s) => String.eqb s expected | _ => false end.

Definition is_number (expected : Z) (v : option JSON) : bool :=
  match v with Some (JNum n) => n =? expected | _ => false end.

(** The request body carries [content] as its text, tagged [activity], at
    sequence number [sequenceNo]. *)
Definition describes (content activity : string) (sequenceNo : Z) (requestBody : JSON)
  : bool :=
  is_string content (Json.path p_data requestBody)
  && is_string activity (Json.path p_activity requestBody)
  && is_number sequenceNo (Json.path p_sequenceNumber requestBody).

(** A submission of [content] tagged [activity] at [sequenceNo] is among
    the events. *)
Definition submitted (content activity : string) (sequenceNo : Z) (evs : list Event)
  : bool :=
  existsb (fun sub => describes content activity sequenceNo (snd sub)) (submissions evs).

(** The submission of the upload branch taken on its own: the payload is
    built from the state the branch starts in and handed to the client. *)
Definition uploadSubmission
  (accessToken : string) (etag : option string) (name applicationId prompt sessionId : string)
  (sequenceNo : Z) : M ContentResult :=
  processContentRequestBody <-
    constructProcessContentRequestBody prompt name sequenceNo sessionId
      "uploadText" applicationId ;;
  invokeProcessContentApi accessToken etag processContentRequestBody.

(** The value the [If-None-Match] header is expected to carry for a
    supplied etag: the etag itself, the empty string when there is none. *)
Definition supplied (etag : option string) : string :=
  match etag with Some e => e | None => "" end.

(** A comma-separated list of double-quoted strings, each string as it is. *)
Fixpoint quoted_list (ids : list string) : string :=
  match ids with
  | [] => ""
  | id :: rest =>
      String Js.dquote id ++ String Js.dquote ""
        ++ match rest with [] => "" | _ => "," ++ quoted_list rest end
  end.

(** How each character of the template constrains the character that
    stands at its place in an identifier. *)
Definition is_lower_hex (c : ascii) : bool :=
  let n := N_of_ascii c in
  (((48 <=? n) && (n <=? 57)) || ((97 <=? n) && (n <=? 102)))%N.

Definition is_variant (c : ascii) : bool :=
  Ascii.eqb c "8" || Ascii.eqb c "9" || Ascii.eqb c "a" || Ascii.eqb c "b".

Definition char_ok (t c : ascii) : bool :=
  if Ascii.eqb t "x" then is_lower_hex c
  else if Ascii.eqb t "y" then is_variant c
  else Ascii.eqb c t.

Fixpoint follows (tpl out : string) : bool :=
  match tpl, out with
  | EmptyString, EmptyString => true
  | String t tr, String c cr => char_ok t c && follows tr cr
  | _, _ => false
  end.

(** The number of draws a template consumes. *)
Fixpoint draws_of (tpl : string) : nat :=
  match tpl with
  | EmptyString => 0
  | String t r =>
      ((if Ascii.eqb t "x" || Ascii.eqb t "y" then 1 else 0) + draws_of r)%nat
  end.

(** [Math.random()] yields a number in the interval from 0 (included) to 1
    (excluded). *)
Definition unit_draws (P : Platform) : Prop :=
  forall n, (0 <= Math_random P n)%Q /\ (Math_random P n < 1)%Q.

Definition advance_rand (n : nat) (s : State) : State :=
  {| rand_pos := (rand_pos s + n)%nat; clock_pos := clock_pos s;
     fetch_pos := fetch_pos s |}.

(** The run came back with a value. *)
Definition returned {A} (r : Run A) : bool :=
  match outcome r with Returned _ => true | Thrown _ => false end.

(** [r] with the events [evs] in front of its own. *)
Definition prepend {A} (evs : list Event) (r : Run A) : Run A :=
  {| outcome := outcome r; final := final r; events := evs ++ events r |}.

(** One branch of [enqueueOfflinePurviewTasksAsync], which the source
    writes out twice: announce, build the payload, log it, submit it, log
    the answer.  [said] holds the four fixed log lines of the branch. *)
Definition submitBranch
  (accessToken : string) (etag : option string)
  (content name : string) (sequenceNo : Z) (sessionId activity applicationId : string)
  (said : string * string * string * string) (context : InvocationContext) : M unit :=
  let '(handling, requestLine, bodyLine, headersLine) := said in
  log (Context_log context) [LStr handling] ;;
  requestBody <-
    constructProcessContentRequestBody content name sequenceNo sessionId
      activity applicationId ;;
  log (Context_log context) [LStr requestLine] ;;
  log (Context_log context) [LStr (Json.stringify requestBody)] ;;
  r <- invokeProcessContentApi accessToken etag requestBody ;;
  log (Context_log context) [LStr bodyLine; LStr (content_body r)] ;;
  let headersObject := Http.fromEntries (content_headers r) in
  log (Context_log context) [LStr headersLine; LStr (Json.stringify headersObject)].

(** What the three label operations do once the URL is built, which the
    source writes out three times: the GET, the status check and the body
    returned as text.  [logLabel] is the line the body is logged under. *)
Definition callGraph (accessToken url logLabel : string) (context : InvocationContext)
  : M string :=
  response <- fetch (graphRequest accessToken url) ;;
  if negb (ok response) then
    errorText <- response_text response ;;
    throw (new_Error ("LabelInfo call failed - " ++ Js.Number_toString (status response)
                        ++ ": " ++ errorText))
  else
    body <- response_text response ;;
    log (Context_log context) [LStr logLabel; LStr body] ;;
    ret body.

(** The [catch] block the three label operations share. *)
Definition labelErrorHandler (context : InvocationContext) (error : Error) : M string :=
  log (Context_error context) [LStr "Error retrieving label info:"; LErr error] ;;
  throw error.

Definition uploadSaid : string * string * string * string :=
  ("Handling evaluateOffline logic for uploadText...",
   "ProcessContent Request Body:For the uploadText API(prompt)",
   "Process Content API Response body for Prompt:",
   "Response Headers for Prompt:").

Definition downloadSaid : string * string * string * string :=
  ("Handling evaluateOffline logic for downloadText...",
   "ProcessContent Request Body:For the downloadText API(Response)",
   "Process Content API Response body for Response:",
   "Process Content API Response Headers for Response:").

(* ================================================================== *)
(** ** Sample platforms *)
(* ================================================================== *)

Module Sample.

Definition context : InvocationContext := {| invocationId := "inv-1" |}.

Definition env_of (purview graph : option string) (name : string) : option string :=
  if String.eqb name "PURVIEW_BASE_URL" then purview
  else if String.eqb name "GRAPH_BASE_URL" then graph
  else None.

(** Draws that walk through the sixteenths of the unit interval. *)
Definition draws (n : nat) : Q := Z.of_nat (n mod 16) # 16.

(** A clock that has moved on by one millisecond at every reading. *)
Definition ticking (n : nat) : Z := 1793680496789 + Z.of_nat n.

(** A clock that stands still. *)
Definition frozen (n : nat) : Z := 1793680496789.

Definition accepted : Response :=
  {| status := 200; headers := [("etag", "abc")];
     text := "{}"; json := inr (JObj [("ok", JBool true)]) |}.

Definition refused : Response :=
  {| status := 403; headers := []; text := "Forbidden";
     json := inl (MkError "SyntaxError" "Unexpected token F in JSON at position 0") |}.

Definition accepting (n : nat) (req : Request) : FetchResult := Resolved accepted.
Definition refusing (n : nat) (req : Request) : FetchResult := Resolved refused.

Definition platform (purview graph : option string) (clock : nat -> Z)
  (net : nat -> Request -> FetchResult) : Platform :=
  {| env := env_of purview graph; Math_random := draws; Date_now := clock;
     network := net |}.

(** Configured, and the service accepts every request. *)
Definition up : Platform :=
  platform (Some "https://purview.example/v1//") (Some "https://graph.example/v1.0///")
    ticking accepting.

(** Configured, and the service refuses every request. *)
Definition down : Platform :=
  platform (Some "https://purview.example/v1//") (Some "https://graph.example/v1.0///")
    ticking refusing.

(** Nothing configured. *)
Definition bare : Platform := platform None None frozen accepting.

(** Both base URLs configured to one value that ends in two slashes. *)
Definition same : Platform :=
  platform (Some "https://api.example/v1//") (Some "https://api.example/v1//")
    frozen accepting.

End Sample.

(* ================================================================== *)
(** ** Further observations *)
(* ================================================================== *)

(** The error a run ended with, if it threw. *)
Definition thrown {A} (r : Run A) : option Error :=
  match outcome r with Returned _ => None | Thrown e => Some e end.

Fixpoint arg_errors (args : list LogArg) : list Error :=
  match args with
  | [] => []
  | LErr e :: rest => e :: arg_errors rest
  | LStr _ :: rest => arg_errors rest
  end.

(** The error objects a run handed to a logging sink, in order, each with
    the sink it went to. *)
Fixpoint errors_logged (evs : list Event) : list (Sink * Error) :=
  match evs with
  | [] => []
  | ELog sink args :: rest =>
      (map (fun e => (sink, e)) (arg_errors args) ++ errors_logged rest)%list
  | _ :: rest => errors_logged rest
  end.

(** The state once one more request has been handed to the transport. *)
Definition after_fetch (s : State) : State :=
  {| rand_pos := rand_pos s; clock_pos := clock_pos s; fetch_pos := S (fetch_pos s) |}.

(** The error both Purview clients raise on a status outside 200-299. *)
Definition api_error (r : Response) : Error :=
  new_Error ("API call failed with status " ++ Js.Number_toString (status r) ++ ": "
               ++ text r).

(** The error the label operations raise on a status outside 200-299. *)
Definition label_error (r : Response) : Error :=
  new_Error ("LabelInfo call failed - " ++ Js.Number_toString (status r) ++ ": "
               ++ text r).

(** The transport answers [req], the [n]-th request handed to it, with a
    status in 200-299. *)
Definition accepts (P : Platform) (n : nat) (req : Request) : bool :=
  match network P n req with
  | Resolved a => ok a
  | Rejected _ => false
  end.

(** The document [constructProcessContentRequestBody] returns when it is
    called in state [s]. *)
Definition documentBuilt
  (contentData name : string) (sequenceNo : Z) (correlationId activity applicationId : string)
  (P : Platform) (s : State) : JSON :=
  match outcome (constructProcessContentRequestBody contentData name sequenceNo
                   correlationId activity applicationId P s) with
  | Returned doc => doc
  | Thrown _ => JNull
  end.

(** The state once a submission has been built and its request handed to
    the transport: 31 draws, two clock readings and one request later. *)
Definition afterSubmission (s : State) : State :=
  {| rand_pos := (rand_pos s + 31)%nat; clock_pos := S (S (clock_pos s));
     fetch_pos := S (fetch_pos s) |}.

(** The request is a POST with a JSON body under a bearer token. *)
Definition is_purview_post (accessToken : string) (req : Request) : Prop :=
  method req = "POST"
  /\ Http.sent_header "Authorization" req = Some ("Bearer " ++ accessToken)
  /\ Http.sent_header "Content-Type" req = Some "application/json"
  /\ req_body req <> None.

(** The request is a GET without a body under a bearer token. *)
Definition is_graph_get (accessToken : string) (req : Request) : Prop :=
  method req = "GET"
  /\ Http.sent_header "Authorization" req = Some ("Bearer " ++ accessToken)
  /\ Http.sent_header "Accept" req = Some "application/json"
  /\ Http.sent_header "User-Agent" req = Some "Purview-API-Sample"
  /\ req_body req = None.

(** The digits an identifier is made of, read off the draws from position
    [n] on: one per [x] and one per [y] of the template, in order. *)
Fixpoint drawn_digits (tpl : string) (draws : nat -> Q) (n : nat) : list Z :=
  match tpl with
  | EmptyString => []
  | String t rest =>
      if Ascii.eqb t "x" then
        Js.Math_trunc (draws n * 16) :: drawn_digits rest draws (S n)
      else if Ascii.eqb t "y" then
        (Js.rem (Js.Math_trunc (draws n * 16)) 4 + 8) :: drawn_digits rest draws (S n)
      else drawn_digits rest draws n
  end.

(** The template with its [x] and [y] replaced, in order, by the digits
    given. *)
Fixpoint fill (tpl : string) (digits : list Z) : string :=
  match tpl with
  | EmptyString => ""
  | String t rest =>
      if Ascii.eqb t "x" || Ascii.eqb t "y" then
        match digits with
        | d :: ds => Js.Number_toString16 d ++ fill rest ds
        | [] => fill rest []
        end
      else String t (fill rest digits)
  end.

Definition is_digit (d : Z) : Prop := 0 <= d < 16.

Definition p_identifier := (entry0 ++ [Json.Key "identifier"])%list.

(** More sample platforms. *)
Module Cases.

Definition unreachable : Error := MkError "FetchError" "getaddrinfo ENOTFOUND".

(** The transport cannot reach the service. *)
Definition rejecting (n : nat) (req : Request) : FetchResult := Rejected unreachable.

(** The service accepts the first request; after it the transport cannot
    reach the service any more. *)
Definition flaky (n : nat) (req : Request) : FetchResult :=
  match n with
  | O => Resolved Sample.accepted
  | _ => Rejected unreachable
  end.

(** A 200 answer whose body is not JSON. *)
Definition plain : Response :=
  {| status := 200; headers := [("x-ms-result", "allowed")]; text := "done";
     json := inl (MkError "SyntaxError" "Unexpected token d in JSON at position 0") |}.

Definition plainly (n : nat) (req : Request) : FetchResult := Resolved plain.

Definition offline : Platform :=
  Sample.platform (Some "https://purview.example/v1//")
    (Some "https://graph.example/v1.0///") Sample.ticking rejecting.

Definition half : Platform :=
  Sample.platform (Some "https://purview.example/v1//")
    (Some "https://graph.example/v1.0///") Sample.ticking flaky.

Definition terse : Platform :=
  Sample.platform (Some "https://purview.example/v1//")
    (Some "https://graph.example/v1.0///") Sample.ticking plainly.

(** [PURVIEW_BASE_URL] set to the empty string, [GRAPH_BASE_URL] to slashes. *)
Definition blank : Platform :=
  Sample.platform (Some "") (Some "///") Sample.frozen Sample.accepting.

End Cases.

(* ================================================================== *)
(** ** The identifier generator *)
(* ================================================================== *)

Lemma append_assoc (a b c : string) : (a ++ b) ++ c = a ++ (b ++ c).
Proof. induction a as [|x a IH]; simpl; [reflexivity | now rewrite IH]. Qed.

Lemma append_nil_r (a : string) : a ++ "" = a.
Proof. induction a as [|x a IH]; simpl; [reflexivity | now rewrite IH]. Qed.

(** Scaling a draw by 16 and truncating leaves one of the sixteen digits. *)
Lemma trunc_draw_range (u : Q) :
  (0 <= u)%Q -> (u < 1)%Q -> 0 <= Js.Math_trunc (u * 16) < 16.
Proof.
  destruct u as [n d]. unfold Qle, Qlt, Js.Math_trunc. simpl.
  intros Hlo Hhi.
  rewrite Pos.mul_1_r.
  rewrite Z.quot_div_nonneg by lia.
  split.
  - apply Z.div_pos; lia.
  - apply Z.div_lt_upper_bound; lia.
Qed.

Lemma digit_cases (r : Z) :
  0 <= r < 16 ->
  r = 0 \/ r = 1 \/ r = 2 \/ r = 3 \/ r = 4 \/ r = 5 \/ r = 6 \/ r = 7 \/
  r = 8 \/ r = 9 \/ r = 10 \/ r = 11 \/ r = 12 \/ r = 13 \/ r = 14 \/ r = 15.
Proof. lia. Qed.

Lemma hex_of_digit (r : Z) :
  0 <= r < 16 ->
  exists c, Js.Number_toString16 r = String c "" /\ is_lower_hex c = true.
Proof.
  intros H. apply digit_cases in H.
  repeat (destruct H as [H | H]); subst r; eexists; split; reflexivity.
Qed.

Lemma hex_of_variant (r : Z) :
  0 <= r < 16 ->
  exists c, Js.Number_toString16 (Js.rem r 4 + 8) = String c "" /\ is_variant c = true.
Proof.
  intros H. apply digit_cases in H.
  repeat (destruct H as [H | H]); subst r; eexists; split; reflexivity.
Qed.

Lemma advance_rand_succ (n : nat) (s : State) :
  advance_rand n {| rand_pos := S (rand_pos s); clock_pos := clock_pos s;
                    fetch_pos := fetch_pos s |}
  = advance_rand (S n) s.
Proof. unfold advance_rand; simpl. f_equal. lia. Qed.

Lemma advance_rand_zero (s : State) : advance_rand 0 s = s.
Proof. destruct s; unfold advance_rand; simpl. f_equal. lia. Qed.

(** The loop never throws and emits nothing; it consumes one draw per
    [x] or [y], and what it appends follows the template when the draws
    are what [Math.random] promises. *)
Lemma generateGuid_loop_run (P : Platform) (tpl : string) :
  forall guid s,
  exists out,
    generateGuid_loop tpl guid P s
    = {| outcome := Returned (guid ++ out);
         final := advance_rand (draws_of tpl) s;
         events := [] |}
    /\ (unit_draws P -> follows tpl out = true).
Proof.
  induction tpl as [|t tpl IH]; intros guid s.
  - exists "". simpl. rewrite append_nil_r, advance_rand_zero. auto.
  - simpl. destruct (Ascii.eqb t "x") eqn:Hx; [|destruct (Ascii.eqb t "y") eqn:Hy].
    + unfold bind, random. simpl.
      destruct (IH (guid ++ Js.Number_toString16
                             (Js.Math_trunc (Math_random P (rand_pos s) * 16)))
                   {| rand_pos := S (rand_pos s); clock_pos := clock_pos s;
                      fetch_pos := fetch_pos s |}) as [out [E F]].
      rewrite E. simpl. rewrite advance_rand_succ.
      exists (Js.Number_toString16 (Js.Math_trunc (Math_random P (rand_pos s) * 16)) ++ out).
      rewrite append_assoc. split; [reflexivity|].
      intros U. destruct (U (rand_pos s)) as [Hlo Hhi].
      destruct (hex_of_digit _ (trunc_draw_range _ Hlo Hhi)) as [c [Ec Hc]].
      rewrite Ec. simpl. unfold char_ok. rewrite Hx, Hc. simpl. auto.
    + unfold bind, random. simpl.
      destruct (IH (guid ++ Js.Number_toString16
                             (Js.rem (Js.Math_trunc (Math_random P (rand_pos s) * 16)) 4 + 8))
                   {| rand_pos := S (rand_pos s); clock_pos := clock_pos s;
                      fetch_pos := fetch_pos s |}) as [out [E F]].
      rewrite E. simpl. rewrite advance_rand_succ.
      exists (Js.Number_toString16
                (Js.rem (Js.Math_trunc (Math_random P (rand_pos s) * 16)) 4 + 8) ++ out).
      rewrite append_assoc. split; [reflexivity|].
      intros U. destruct (U (rand_pos s)) as [Hlo Hhi].
      destruct (hex_of_variant _ (trunc_draw_range _ Hlo Hhi)) as [c [Ec Hc]].
      rewrite Ec. simpl. unfold char_ok. rewrite Hx, Hy, Hc. simpl. auto.
    + destruct (IH (guid ++ String t "") s) as [out [E F]].
      rewrite E. exists (String t out).
      rewrite append_assoc. simpl. split; [reflexivity|].
      intros U. unfold char_ok. rewrite Hx, Hy, Ascii.eqb_refl. simpl. auto.
Qed.

Lemma generateGuid_run (P : Platform) (s : State) :
  exists guid,
    generateGuid P s
    = {| outcome := Returned guid; final := advance_rand 31 s; events := [] |}
    /\ (unit_draws P -> follows template guid = true).
Proof.
  destruct (generateGuid_loop_run P template "" s) as [out [E F]].
  exists out. split; [exact E | exact F].
Qed.

Lemma follows_length (tpl : string) :
  forall out, follows tpl out = true -> String.length out = String.length tpl.
Proof.
  induction tpl as [|t tpl IH]; intros [|c out]; simpl; try discriminate; auto.
  intros H. apply andb_prop in H. destruct H as [_ H]. f_equal. auto.
Qed.

Lemma follows_get (tpl : string) :
  forall out i t,
    follows tpl out = true -> String.get i tpl = Some t ->
    exists c, String.get i out = Some c /\ char_ok t c = true.
Proof.
  induction tpl as [|t0 tpl IH]; intros [|c out] i t; simpl; try discriminate.
  intros H G. apply andb_prop in H. destruct H as [H0 H].
  destruct i as [|i].
  - inversion G; subst. exists c. auto.
  - eapply IH; eauto.
Qed.

(** Away from the hyphens, the version digit and the variant digit, the
    template holds an [x]. *)
Lemma template_x (i : nat) :
  (i < 36)%nat -> ~ In i [8; 13; 14; 18; 19; 23]%nat ->
  String.get i template = Some "x"%char.
Proof.
  intros Hi Hn.
  do 36 (destruct i as [|i]; [try reflexivity; exfalso; apply Hn; simpl; tauto|]).
  lia.
Qed.

(** C5.  Whatever [Math.random] draws from its interval, [generateGuid]
    returns a string of 36 characters with a hyphen at positions 8, 13, 18
    and 23, the digit 4 at position 14, one of 8, 9, a, b at position 19
    and a lower-case hexadecimal digit at every other position. *)
Theorem generateGuid_pattern (P : Platform) (s : State) :
  unit_draws P ->
  exists guid,
    outcome (generateGuid P s) = Returned guid
    /\ String.length guid = 36%nat
    /\ (forall i, In i [8; 13; 18; 23]%nat -> String.get i guid = Some "-"%char)
    /\ String.get 14 guid = Some "4"%char
    /\ (exists c, String.get 19 guid = Some c
                  /\ In c ["8"; "9"; "a"; "b"]%char)
    /\ (forall i, (i < 36)%nat -> ~ In i [8; 13; 14; 18; 19; 23]%nat ->
          exists c, String.get i guid = Some c /\ is_lower_hex c = true).
Proof.
  intros U. destruct (generateGuid_run P s) as [guid [E F]].
  specialize (F U). exists guid. rewrite E. simpl.
  split; [reflexivity|].
  split; [exact (follows_length _ _ F)|].
  assert (fixed : forall i t, String.get i template = Some t ->
                    Ascii.eqb t "x" = false -> Ascii.eqb t "y" = false ->
                    String.get i guid = Some t).
  { intros i t G Hx Hy. destruct (follows_get _ _ _ _ F G) as [c [Gc Hc]].
    unfold char_ok in Hc. rewrite Hx, Hy in Hc.
    apply Ascii.eqb_eq in Hc. now subst. }
  split.
  { intros i Hi. simpl in Hi.
    destruct Hi as [<-|[<-|[<-|[<-|[]]]]]; apply fixed; reflexivity. }
  split; [apply fixed; reflexivity|].
  split.
  { destruct (follows_get _ _ 19%nat "y"%char F eq_refl) as [c [Gc Hc]].
    exists c. split; [exact Gc|].
    unfold char_ok in Hc. simpl in Hc. unfold is_variant in Hc.
    repeat (apply orb_prop in Hc; destruct Hc as [Hc|Hc]);
      apply Ascii.eqb_eq in Hc; subst; simpl; tauto. }
  intros i Hi Hn.
  destruct (follows_get _ _ i "x"%char F (template_x i Hi Hn)) as [c [Gc Hc]].
  exists c. split; [exact Gc | exact Hc].
Qed.
(* ================================================================== *)
(** ** Numbers *)
(* ================================================================== *)

(** On a safe integer, adding one is exact. *)
Lemma Js_plus_safe (n : Z) : Js.safe_integer n -> Js.plus n 1 = n + 1.
Proof.
  unfold Js.safe_integer, Js.plus, Js.to_double, Js.two53. intros H.
  destruct (Z.leb_spec (Z.abs (n + 1)) 9007199254740992); [reflexivity | lia].
Qed.

(** At 2^53 it is not: the sum is rounded back to 2^53. *)
Lemma Js_plus_rounds : Js.plus Js.two53 1 = Js.two53.
Proof. reflexivity. Qed.


(* ================================================================== *)
(** ** The payload builder *)
(* ================================================================== *)

(** The builder never throws and emits nothing: it draws an identifier,
    reads the clock twice and returns the document. *)
Lemma constructProcessContentRequestBody_run
  (contentData name : string) (sequenceNo : Z) (correlationId activity applicationId : string)
  (P : Platform) (s : State) :
  exists identifier,
    constructProcessContentRequestBody contentData name sequenceNo correlationId activity
      applicationId P s
    = {| outcome :=
           Returned (processContentDocument contentData name sequenceNo correlationId
                       activity applicationId identifier
                       (Js.toISOString (Date_now P (clock_pos s)))
                       (Js.toISOString (Date_now P (S (clock_pos s)))));
         final := {| rand_pos := (rand_pos s + 31)%nat;
                     clock_pos := S (S (clock_pos s));
                     fetch_pos := fetch_pos s |};
         events := [] |}.
Proof.
  destruct (generateGuid_run P s) as [guid [E _]].
  exists guid.
  unfold constructProcessContentRequestBody, bind. rewrite E.
  reflexivity.
Qed.

Lemma describes_document
  (contentData name : string) (sequenceNo : Z) (correlationId activity applicationId : string)
  (identifier created modified : string) (content tag : string) (n : Z) :
  describes content tag n
    (processContentDocument contentData name sequenceNo correlationId activity
       applicationId identifier created modified)
  = String.eqb contentData content && String.eqb activity tag && (sequenceNo =? n).
Proof. reflexivity. Qed.

(* ================================================================== *)
(** ** The Purview clients *)
(* ================================================================== *)

Ltac run_client :=
  unfold invokeProtectionScopeApi, invokeProcessContentApi, try_catch, bind,
    process_env, emit, fetch, log, throw, ret, response_text, response_json;
  simpl.

(** A call of the content-processing client is one submission, puts at
    most one request on the network and leaves the oracles of the clock
    and of the draws where they were. *)
Lemma invokeProcessContentApi_events
  (accessToken : string) (etag : option string) (requestBody : JSON)
  (P : Platform) (s : State) :
  exists rest,
    events (invokeProcessContentApi accessToken etag requestBody P s)
    = EProcessContent accessToken etag requestBody :: rest
    /\ submissions rest = []
    /\ (length (fetches rest) <= 1)%nat.
Proof.
  run_client.
  destruct (env P "PURVIEW_BASE_URL") as [base|]; simpl.
  - destruct (Js.truthy base); simpl.
    + destruct (network P (fetch_pos s) _) as [e|r]; simpl.
      * eexists; repeat split; simpl; auto.
      * destruct (ok r); simpl; eexists; repeat split; simpl; auto.
    + eexists; repeat split; simpl; auto.
  - eexists; repeat split; simpl; auto.
Qed.

(** C6.  While [PURVIEW_BASE_URL] is absent from the environment, both
    Purview clients fail with the configuration error, and they do so
    without putting any request on the network. *)
Theorem missing_base_url_is_fatal
  (accessToken : string) (etag : option string) (requestBody : JSON)
  (P : Platform) (s : State) :
  env P "PURVIEW_BASE_URL" = None ->
  let scope := invokeProtectionScopeApi accessToken P s in
  let content := invokeProcessContentApi accessToken etag requestBody P s in
  outcome scope = Thrown missing_purview_base_url
  /\ fetches (events scope) = []
  /\ fetch_pos (final scope) = fetch_pos s
  /\ outcome content = Thrown missing_purview_base_url
  /\ fetches (events content) = []
  /\ fetch_pos (final content) = fetch_pos s.
Proof.
  intros H. run_client. rewrite H. simpl. repeat split.
Qed.

(** C7.  Once the protection-scope request resolves: a status outside
    200-299 makes the operation fail with an error whose message carries
    the status code and the body text; a status inside it makes the
    operation hand back what [response.json()] yields together with the
    [etag] header, and a missing header gives a null etag, not a failure. *)
Theorem protection_scope_response
  (accessToken base : string) (P : Platform) (s : State) (r : Response) :
  env P "PURVIEW_BASE_URL" = Some base ->
  Js.truthy base = true ->
  network P (fetch_pos s) (protectionScopeRequest accessToken base) = Resolved r ->
  let run := invokeProtectionScopeApi accessToken P s in
  (ok r = false ->
     outcome run
     = Thrown (new_Error ("API call failed with status " ++ Js.Number_toString (status r)
                            ++ ": " ++ text r)))
  /\ (ok r = true ->
        forall parsed, json r = inr parsed ->
          outcome run = Returned {| body := parsed; etag := Http.get "etag" (headers r) |})
  /\ (ok r = true -> Http.get "etag" (headers r) = None ->
        forall parsed, json r = inr parsed ->
          outcome run = Returned {| body := parsed; etag := None |})
  /\ (ok r = true -> forall e, json r = inl e -> outcome run = Thrown e).
Proof.
  intros Henv Hbase Hnet. run_client. rewrite Henv. simpl. rewrite Hbase. simpl.
  rewrite Hnet. simpl.
  repeat split.
  - intros Hok. rewrite Hok. reflexivity.
  - intros Hok parsed Hj. rewrite Hok. simpl. rewrite Hj. reflexivity.
  - intros Hok Hnone parsed Hj. rewrite Hok. simpl. rewrite Hj, Hnone. reflexivity.
  - intros Hok e Hj. rewrite Hok. simpl. rewrite Hj. reflexivity.
Qed.

(** C8.  Every request [invokeProcessContentApi] puts on the network
    carries an [If-None-Match] header whose value is the supplied etag,
    and the empty string when the etag is empty or absent: the header is
    never left out.  With the base URL configured there is exactly one
    such request. *)
Theorem if_none_match_header
  (accessToken : string) (etag : option string) (requestBody : JSON)
  (P : Platform) (s : State) :
  let run := invokeProcessContentApi accessToken etag requestBody P s in
  Forall (fun req => Http.sent_header "If-None-Match" req = Some (supplied etag))
    (fetches (events run))
  /\ (Js.truthy_opt (env P "PURVIEW_BASE_URL") = true ->
      length (fetches (events run)) = 1%nat)
  /\ (etag = None \/ etag = Some "" ->
      Forall (fun req => Http.sent_header "If-None-Match" req = Some "")
        (fetches (events run))).
Proof.
  assert (hdr : forall base,
            Http.sent_header "If-None-Match"
              (processContentRequest accessToken etag base requestBody)
            = Some (supplied etag)).
  { intros base. unfold Http.sent_header, processContentRequest. simpl.
    destruct etag as [[|c e]|]; reflexivity. }
  assert (sent : Forall (fun req => Http.sent_header "If-None-Match" req
                                    = Some (supplied etag))
                   (fetches (events
                      (invokeProcessContentApi accessToken etag requestBody P s)))
                 /\ (Js.truthy_opt (env P "PURVIEW_BASE_URL") = true ->
                     length (fetches (events
                       (invokeProcessContentApi accessToken etag requestBody P s)))
                     = 1%nat)).
  { run_client.
    destruct (env P "PURVIEW_BASE_URL") as [base|]; simpl.
    - destruct (Js.truthy base) eqn:Hb; simpl.
      + destruct (network P (fetch_pos s) _) as [e|r]; simpl;
          [|destruct (ok r); simpl];
          (split; [apply Forall_cons; [apply hdr | apply Forall_nil] | reflexivity]).
      + split; [constructor | discriminate].
    - split; [constructor | discriminate]. }
  destruct sent as [all one].
  split; [exact all | split; [exact one |]].
  intros [-> | ->]; exact all.
Qed.

(* ================================================================== *)
(** ** Sequencing *)
(* ================================================================== *)

Section Sequencing.

Context {A B : Type}.

Lemma bind_returned (m : M A) (f : A -> M B) P s a s' evs :
  m P s = {| outcome := Returned a; final := s'; events := evs |} ->
  bind m f P s = prepend evs (f a P s').
Proof. intros E. unfold bind, prepend. rewrite E. reflexivity. Qed.

Lemma bind_thrown (m : M A) (f : A -> M B) P s e s' evs :
  m P s = {| outcome := Thrown e; final := s'; events := evs |} ->
  bind m f P s = {| outcome := Thrown e; final := s'; events := evs |}.
Proof. intros E. unfold bind. rewrite E. reflexivity. Qed.

Lemma try_catch_returned (body : M A) (handler : Error -> M A) P s a s' evs :
  body P s = {| outcome := Returned a; final := s'; events := evs |} ->
  try_catch body handler P s = {| outcome := Returned a; final := s'; events := evs |}.
Proof. intros E. unfold try_catch. rewrite E. reflexivity. Qed.

Lemma try_catch_thrown (body : M A) (handler : Error -> M A) P s e s' evs :
  body P s = {| outcome := Thrown e; final := s'; events := evs |} ->
  try_catch body handler P s = prepend evs (handler e P s').
Proof. intros E. unfold try_catch, prepend. rewrite E. reflexivity. Qed.

End Sequencing.

Lemma submissions_app (a b : list Event) :
  submissions (a ++ b) = (submissions a ++ submissions b)%list.
Proof.
  induction a as [|e a IH]; simpl; [reflexivity|].
  destruct e; simpl; now rewrite ?IH.
Qed.

Lemma fetches_app (a b : list Event) :
  fetches (a ++ b) = (fetches a ++ fetches b)%list.
Proof.
  induction a as [|e a IH]; simpl; [reflexivity|].
  destruct e; simpl; now rewrite ?IH.
Qed.

(* ================================================================== *)
(** ** The offline task orchestrator *)
(* ================================================================== *)

(** The orchestrator is its two branches in a row inside one [try]. *)
Lemma enqueueOfflinePurviewTasksAsync_unfold
  (accessToken : string) (etag : option string)
  (name applicationId uploadTextMode downloadTextMode prompt response sessionId : string)
  (sequenceNo : Z) (context : InvocationContext) :
  enqueueOfflinePurviewTasksAsync accessToken etag name applicationId uploadTextMode
    downloadTextMode prompt response sessionId sequenceNo context
  = try_catch
      (bind (when (String.eqb uploadTextMode "evaluateOffline")
               (submitBranch accessToken etag prompt name sequenceNo sessionId
                  "uploadText" applicationId uploadSaid context))
         (fun _ =>
            bind (when (String.eqb downloadTextMode "evaluateOffline")
                    (submitBranch accessToken etag response name (Js.plus sequenceNo 1)
                       sessionId "downloadText" applicationId downloadSaid context))
              (fun _ => ret "OK")))
      (fun error =>
         bind (log (Context_error context)
                 [LStr "Error invoking ProcessContent API"; LErr error])
           (fun _ => throw error)).
Proof. reflexivity. Qed.

(** What one branch does: it builds a document, submits it once, and ends
    the way the submission ends.  Everything else it emits is logging. *)
Lemma submitBranch_run
  (accessToken : string) (etag : option string)
  (content name : string) (sequenceNo : Z) (sessionId activity applicationId : string)
  (said : string * string * string * string) (context : InvocationContext)
  (P : Platform) (s : State) :
  exists identifier pre post,
    let doc :=
      processContentDocument content name sequenceNo sessionId activity applicationId
        identifier (Js.toISOString (Date_now P (clock_pos s)))
        (Js.toISOString (Date_now P (S (clock_pos s)))) in
    let s1 := {| rand_pos := (rand_pos s + 31)%nat; clock_pos := S (S (clock_pos s));
                 fetch_pos := fetch_pos s |} in
    let i := invokeProcessContentApi accessToken etag doc P s1 in
    constructProcessContentRequestBody content name sequenceNo sessionId activity
      applicationId P s
    = {| outcome := Returned doc; final := s1; events := [] |}
    /\ submitBranch accessToken etag content name sequenceNo sessionId activity
         applicationId said context P s
       = {| outcome := match outcome i with
                       | Returned _ => Returned tt
                       | Thrown e => Thrown e
                       end;
            final := final i;
            events := pre ++ events i ++ post |}
    /\ submissions pre = [] /\ fetches pre = []
    /\ submissions post = [] /\ fetches post = [].
Proof.
  destruct said as [[[handling requestLine] bodyLine] headersLine].
  destruct (constructProcessContentRequestBody_run content name sequenceNo sessionId
              activity applicationId P s) as [identifier EC].
  exists identifier.
  set (doc := processContentDocument _ _ _ _ _ _ _ _ _) in *.
  set (s1 := {| rand_pos := _; clock_pos := _; fetch_pos := _ |}) in *.
  destruct (invokeProcessContentApi accessToken etag doc P s1) as [o f evs] eqn:EI.
  unfold submitBranch.
  erewrite bind_returned by reflexivity.
  erewrite bind_returned by exact EC.
  erewrite bind_returned by reflexivity.
  erewrite bind_returned by reflexivity.
  destruct o as [r|e].
  - erewrite bind_returned by exact EI.
    exists [ELog (Context_log context) [LStr handling];
            ELog (Context_log context) [LStr requestLine];
            ELog (Context_log context) [LStr (Json.stringify doc)]].
    exists [ELog (Context_log context) [LStr bodyLine; LStr (content_body r)];
            ELog (Context_log context)
              [LStr headersLine;
               LStr (Json.stringify (Http.fromEntries (content_headers r)))]].
    cbv zeta. rewrite EI. split; [exact EC | repeat split].
  - erewrite bind_thrown by exact EI.
    exists [ELog (Context_log context) [LStr handling];
            ELog (Context_log context) [LStr requestLine];
            ELog (Context_log context) [LStr (Json.stringify doc)]].
    exists [].
    cbv zeta. rewrite EI. unfold prepend. simpl. rewrite app_nil_r.
    split; [exact EC | repeat split].
Qed.

(** A branch seen from outside: one submission, at most one request, and
    the outcome of the submission it makes. *)
Lemma submitBranch_summary
  (accessToken : string) (etag : option string)
  (content name : string) (sequenceNo : Z) (sessionId activity applicationId : string)
  (said : string * string * string * string) (context : InvocationContext)
  (P : Platform) (s : State) :
  let r := submitBranch accessToken etag content name sequenceNo sessionId activity
             applicationId said context P s in
  let sub := bind (constructProcessContentRequestBody content name sequenceNo sessionId
                     activity applicationId)
               (invokeProcessContentApi accessToken etag) P s in
  exists doc,
    (exists id c m, doc = processContentDocument content name sequenceNo sessionId
                           activity applicationId id c m)
    /\ submissions (events r) = [(etag, doc)]
    /\ submissions (events sub) = [(etag, doc)]
    /\ (length (fetches (events r)) <= 1)%nat
    /\ outcome r = match outcome sub with
                   | Returned _ => Returned tt
                   | Thrown e => Thrown e
                   end.
Proof.
  destruct (submitBranch_run accessToken etag content name sequenceNo sessionId
              activity applicationId said context P s)
    as (id & pre & post & EC & EB & Spre & Fpre & Spost & Fpost).
  cbv zeta in EC, EB. cbv zeta.
  rewrite EB. erewrite bind_returned by exact EC.
  match type of EC with
  | _ = {| outcome := Returned ?d; final := ?s1; events := _ |} =>
      destruct (invokeProcessContentApi_events accessToken etag d P s1)
        as (rest & Eev & Srest & Frest);
      exists d
  end.
  unfold prepend. cbn [outcome final events app]. rewrite Eev.
  rewrite !submissions_app, !fetches_app.
  cbn [submissions fetches app].
  rewrite Spre, Fpre, Spost, Fpost, Srest, !app_nil_r.
  cbn [app length].
  split; [eauto|]. repeat split. exact Frest.
Qed.

(** Bring the run of a finished block to its components. *)
Ltac tidy :=
  unfold prepend, ret, log, emit, bind, throw;
  cbn [outcome events final app];
  rewrite ?app_nil_r, ?submissions_app, ?fetches_app, ?length_app;
  cbn [submissions fetches app length].

Ltac close :=
  cbn [andb negb orb app length];
  repeat split; auto; try discriminate; try congruence; try lia.


(** The shape of every run of the orchestrator.  [docU] and [docD] are the
    two payloads; the upload one is submitted when its mode asks for it,
    the download one when its mode asks for it and the run got that far. *)
Lemma enqueueOfflinePurviewTasksAsync_run
  (accessToken : string) (etag : option string)
  (name applicationId uploadTextMode downloadTextMode prompt response sessionId : string)
  (sequenceNo : Z) (context : InvocationContext) (P : Platform) (s : State) :
  let r := enqueueOfflinePurviewTasksAsync accessToken etag name applicationId
             uploadTextMode downloadTextMode prompt response sessionId sequenceNo
             context P s in
  let u := uploadSubmission accessToken etag name applicationId prompt sessionId
             sequenceNo P s in
  let up := String.eqb uploadTextMode "evaluateOffline" in
  let down := String.eqb downloadTextMode "evaluateOffline" in
  exists docU docD,
    (exists id c m, docU = processContentDocument prompt name sequenceNo sessionId
                            "uploadText" applicationId id c m)
    /\ (exists id c m, docD = processContentDocument response name (Js.plus sequenceNo 1)
                               sessionId "downloadText" applicationId id c m)
    /\ submissions (events u) = [(etag, docU)]
    /\ submissions (events r)
       = ((if up then [(etag, docU)] else [])
            ++ (if down && (negb up || returned u) then [(etag, docD)] else []))%list
    /\ (up = true -> forall e, outcome u = Thrown e -> outcome r = Thrown e)
    /\ (forall v, outcome r = Returned v -> v = "OK")
    /\ ((up = false \/ returned u = true) -> down = false -> outcome r = Returned "OK")
    /\ (up = false -> down = false -> events r = [])
    /\ (length (fetches (events r)) <= length (submissions (events r)))%nat.
Proof.
  intros r u up down. subst r.
  rewrite enqueueOfflinePurviewTasksAsync_unfold. fold up down.
  destruct (submitBranch_summary accessToken etag prompt name sequenceNo sessionId
              "uploadText" applicationId uploadSaid context P s)
    as (docU & shapeU & SU & SsubU & FU & OU).
  assert (SsubU' : submissions (events u) = [(etag, docU)]) by exact SsubU.
  assert (OU' : outcome (submitBranch accessToken etag prompt name sequenceNo sessionId
              "uploadText" applicationId uploadSaid context P s)
                = match outcome u with
                  | Returned _ => Returned tt
                  | Thrown e => Thrown e
                  end) by exact OU.
  clear SsubU OU. rename SsubU' into SsubU. rename OU' into OU.
  destruct (submitBranch accessToken etag prompt name sequenceNo sessionId
              "uploadText" applicationId uploadSaid context P s)
    as [oU fU evU] eqn:EU.
  cbn [outcome events] in SU, FU, OU.
  exists docU.
  destruct up eqn:Hup; unfold when.
  - unfold returned. destruct (outcome u) as [vU|eU] eqn:Ou; subst oU.
    + (* the upload submission came back *)
      destruct (submitBranch_summary accessToken etag response name (Js.plus sequenceNo 1)
                  sessionId "downloadText" applicationId downloadSaid context P fU)
        as (docD & shapeD & SD & _ & FD & OD).
      destruct (submitBranch accessToken etag response name (Js.plus sequenceNo 1)
                  sessionId "downloadText" applicationId downloadSaid context P fU)
        as [oD fD evD] eqn:ED.
      cbn [outcome events] in SD, FD, OD.
      exists docD.
      destruct down eqn:Hdown.
      * destruct oD as [[]|eD].
        -- erewrite try_catch_returned;
             [| erewrite bind_returned by exact EU;
                erewrite bind_returned by exact ED; reflexivity].
           tidy. rewrite SU, SD. close.
        -- erewrite try_catch_thrown;
             [| erewrite bind_returned by exact EU;
                erewrite bind_thrown by exact ED; reflexivity].
           tidy. rewrite SU, SD. close.
      * erewrite try_catch_returned;
          [| erewrite bind_returned by exact EU;
             erewrite bind_returned by reflexivity; reflexivity].
        tidy. rewrite SU. close.
    + (* the upload submission threw *)
      destruct (submitBranch_summary accessToken etag response name (Js.plus sequenceNo 1)
                  sessionId "downloadText" applicationId downloadSaid context P s)
        as (docD & shapeD & _).
      exists docD.
      erewrite try_catch_thrown; [| erewrite bind_thrown by exact EU; reflexivity].
      tidy. rewrite SU, andb_false_r. close.
  - destruct (submitBranch_summary accessToken etag response name (Js.plus sequenceNo 1)
                sessionId "downloadText" applicationId downloadSaid context P s)
      as (docD & shapeD & SD & _ & FD & OD).
    destruct (submitBranch accessToken etag response name (Js.plus sequenceNo 1)
                sessionId "downloadText" applicationId downloadSaid context P s)
      as [oD fD evD] eqn:ED.
    cbn [outcome events] in SD, FD, OD.
    exists docD.
    destruct down eqn:Hdown.
    + destruct oD as [[]|eD].
      * erewrite try_catch_returned;
          [| erewrite bind_returned by reflexivity;
             erewrite bind_returned by exact ED; reflexivity].
        tidy. rewrite SD. close.
      * erewrite try_catch_thrown;
          [| erewrite bind_returned by reflexivity;
             erewrite bind_thrown by exact ED; reflexivity].
        tidy. rewrite SD. close.
    + erewrite try_catch_returned;
        [| erewrite bind_returned by reflexivity;
           erewrite bind_returned by reflexivity; reflexivity].
      tidy. close.
Qed.
(** C1, as the code has it.  The upload submission (the prompt, tagged
    uploadText, at [sequenceNo]) is made exactly when [uploadTextMode] is
    "evaluateOffline".  The download submission (the response, tagged
    downloadText, at the JavaScript sum [sequenceNo + 1]) is made exactly
    when [downloadTextMode] is "evaluateOffline" and the upload branch, if
    it ran, did not fail; for a safe integer [sequenceNo] the sum is the
    exact one.  With neither mode set nothing is submitted and no request
    leaves; a run that does not fail returns "OK"; with the upload mode
    alone exactly one submission is made. *)
Theorem enqueue_submissions
  (accessToken : string) (etag : option string)
  (name applicationId uploadTextMode downloadTextMode prompt response sessionId : string)
  (sequenceNo : Z) (context : InvocationContext) (P : Platform) (s : State) :
  let r := enqueueOfflinePurviewTasksAsync accessToken etag name applicationId
             uploadTextMode downloadTextMode prompt response sessionId sequenceNo
             context P s in
  let u := uploadSubmission accessToken etag name applicationId prompt sessionId
             sequenceNo P s in
  (submitted prompt "uploadText" sequenceNo (events r) = true
     <-> uploadTextMode = "evaluateOffline")
  /\ (submitted response "downloadText" (Js.plus sequenceNo 1) (events r) = true
        <-> downloadTextMode = "evaluateOffline"
            /\ (uploadTextMode = "evaluateOffline" -> returned u = true))
  /\ (Js.safe_integer sequenceNo ->
        (submitted response "downloadText" (sequenceNo + 1) (events r) = true
           <-> downloadTextMode = "evaluateOffline"
               /\ (uploadTextMode = "evaluateOffline" -> returned u = true)))
  /\ (uploadTextMode <> "evaluateOffline" -> downloadTextMode <> "evaluateOffline" ->
        submissions (events r) = [] /\ fetches (events r) = []
        /\ outcome r = Returned "OK")
  /\ (forall v, outcome r = Returned v -> v = "OK")
  /\ (uploadTextMode = "evaluateOffline" -> downloadTextMode <> "evaluateOffline" ->
        length (submissions (events r)) = 1%nat).
Proof.
  intros r u.
  destruct (enqueueOfflinePurviewTasksAsync_run accessToken etag name applicationId
              uploadTextMode downloadTextMode prompt response sessionId sequenceNo
              context P s)
    as (docU & docD & (iU & cU & mU & EdU) & (iD & cD & mD & EdD)
        & _ & Hsub & _ & Hok & Hret & Hnone & _).
  fold r u in Hsub, Hok, Hret, Hnone.
  assert (E1 : describes prompt "uploadText" sequenceNo docU = true).
  { rewrite EdU, describes_document, String.eqb_refl, Z.eqb_refl. reflexivity. }
  assert (E2 : describes prompt "uploadText" sequenceNo docD = false).
  { rewrite EdD, describes_document. cbn. now rewrite andb_false_r. }
  assert (E3 : describes response "downloadText" (Js.plus sequenceNo 1) docU = false).
  { rewrite EdU, describes_document. cbn. now rewrite andb_false_r. }
  assert (E4 : describes response "downloadText" (Js.plus sequenceNo 1) docD = true).
  { rewrite EdD, describes_document, String.eqb_refl, Z.eqb_refl. reflexivity. }
  assert (Hsafe : Js.safe_integer sequenceNo -> sequenceNo + 1 = Js.plus sequenceNo 1).
  { intros safe. symmetry. now apply Js_plus_safe. }
  revert Hsafe. generalize (sequenceNo + 1). intros sum Hsafe.
  unfold submitted. rewrite Hsub. clear Hsub.
  destruct (String.eqb uploadTextMode "evaluateOffline") eqn:Hup;
    [apply String.eqb_eq in Hup | apply String.eqb_neq in Hup];
    (destruct (String.eqb downloadTextMode "evaluateOffline") eqn:Hdown;
     [apply String.eqb_eq in Hdown | apply String.eqb_neq in Hdown]);
    destruct (returned u) eqn:Hu;
    cbn [andb negb orb app existsb snd]; rewrite ?E1, ?E2, ?E3, ?E4;
    cbn [orb];
    (split; [intuition congruence|]);
    (split; [intuition congruence|]);
    (split; [intros safe; rewrite ?(Hsafe safe), ?E3, ?E4; cbn [orb];
             intuition congruence|]);
    (split;
     [ intros Hnu Hnd;
       first [ congruence
             | rewrite Hnone by reflexivity; rewrite Hret by (auto || reflexivity);
               repeat split ] |]);
    (split; [exact Hok|]);
    intros Hyu Hnd; first [ reflexivity | congruence ].
Qed.

(** C2.  With both modes set to "evaluateOffline", an upload submission
    that fails ends the run: its error is the error of the run, the upload
    submission is the only one made, and no download submission is. *)
Theorem enqueue_aborts_after_failed_upload
  (accessToken : string) (etag : option string)
  (name applicationId uploadTextMode downloadTextMode prompt response sessionId : string)
  (sequenceNo : Z) (context : InvocationContext) (P : Platform) (s : State) (e : Error) :
  uploadTextMode = "evaluateOffline" ->
  downloadTextMode = "evaluateOffline" ->
  outcome (uploadSubmission accessToken etag name applicationId prompt sessionId
             sequenceNo P s) = Thrown e ->
  let r := enqueueOfflinePurviewTasksAsync accessToken etag name applicationId
             uploadTextMode downloadTextMode prompt response sessionId sequenceNo
             context P s in
  outcome r = Thrown e
  /\ submitted prompt "uploadText" sequenceNo (events r) = true
  /\ submitted response "downloadText" (sequenceNo + 1) (events r) = false
  /\ length (submissions (events r)) = 1%nat
  /\ (length (fetches (events r)) <= 1)%nat.
Proof.
  intros Hup Hdown Hu r. subst uploadTextMode downloadTextMode.
  destruct (enqueueOfflinePurviewTasksAsync_run accessToken etag name applicationId
              "evaluateOffline" "evaluateOffline" prompt response sessionId sequenceNo
              context P s)
    as (docU & docD & (iU & cU & mU & EdU) & _ & _ & Hsub & Hthrow & _ & _ & _ & Hlen).
  fold r in Hsub, Hthrow, Hlen.
  assert (Hone : submissions (events r) = [(etag, docU)]).
  { rewrite Hsub. unfold returned. rewrite Hu. reflexivity. }
  clear Hsub.
  split; [exact (Hthrow eq_refl e Hu)|].
  unfold submitted. rewrite Hone in Hlen |- *.
  cbn [existsb snd length orb] in Hlen |- *.
  rewrite EdU, !describes_document, String.eqb_refl, Z.eqb_refl.
  cbn [andb orb String.eqb Ascii.eqb Bool.eqb]. rewrite andb_false_r.
  repeat split. exact Hlen.
Qed.

(* ================================================================== *)
(** ** The document *)
(* ================================================================== *)

(** C3, as the code has it.  The returned document holds everything under
    its one top-level member [contentToProcess]: there, the first content
    entry carries the sequence number, the correlation id, the content
    data and [isTruncated = false], [activityMetadata.activity] is the
    activity, [protectedAppMetadata.applicationLocation.value] is the
    application id, and the three [@odata.type] discriminators are the
    fixed strings. *)
Theorem document_fields
  (contentData name : string) (sequenceNo : Z) (correlationId activity applicationId : string)
  (P : Platform) (s : State) :
  exists doc,
    outcome (constructProcessContentRequestBody contentData name sequenceNo correlationId
               activity applicationId P s) = Returned doc
    /\ (exists contentToProcess, doc = JObj [("contentToProcess", contentToProcess)])
    /\ Json.path p_sequenceNumber doc = Some (JNum sequenceNo)
    /\ Json.path p_correlationId doc = Some (JStr correlationId)
    /\ Json.path p_data doc = Some (JStr contentData)
    /\ Json.path p_activity doc = Some (JStr activity)
    /\ Json.path p_locationValue doc = Some (JStr applicationId)
    /\ Json.path p_isTruncated doc = Some (JBool false)
    /\ Json.path p_entryType doc
       = Some (JStr "microsoft.graph.processConversationMetadata")
    /\ Json.path p_contentType doc = Some (JStr "microsoft.graph.textContent")
    /\ Json.path p_locationType doc
       = Some (JStr "microsoft.graph.policyLocationApplication").
Proof.
  destruct (constructProcessContentRequestBody_run contentData name sequenceNo
              correlationId activity applicationId P s) as [identifier E].
  rewrite E. eexists. split; [reflexivity|].
  split; [eexists; reflexivity|]. repeat split.
Qed.

(** C4, as the code has it.  [createdDateTime] is the ISO-8601 rendering
    of one clock reading and [modifiedDateTime] that of the next one; the
    two fields are equal whenever the two readings are. *)
Theorem document_timestamps
  (contentData name : string) (sequenceNo : Z) (correlationId activity applicationId : string)
  (P : Platform) (s : State) :
  exists doc,
    outcome (constructProcessContentRequestBody contentData name sequenceNo correlationId
               activity applicationId P s) = Returned doc
    /\ Json.path p_createdDateTime doc
       = Some (JStr (Js.toISOString (Date_now P (clock_pos s))))
    /\ Json.path p_modifiedDateTime doc
       = Some (JStr (Js.toISOString (Date_now P (S (clock_pos s)))))
    /\ (Date_now P (clock_pos s) = Date_now P (S (clock_pos s)) ->
        Json.path p_createdDateTime doc = Json.path p_modifiedDateTime doc).
Proof.
  destruct (constructProcessContentRequestBody_run contentData name sequenceNo
              correlationId activity applicationId P s) as [identifier E].
  rewrite E. eexists. split; [reflexivity|].
  split; [reflexivity|]. split; [reflexivity|].
  intros H. cbn. now rewrite H.
Qed.

(* ================================================================== *)
(** ** Base URLs and the label clients *)
(* ================================================================== *)

Lemma is_slash_true (c : ascii) : Js.is_slash c = true <-> c = Js.slash.
Proof. unfold Js.is_slash. apply Ascii.eqb_eq. Qed.

Lemma all_slashes_last (s : string) :
  Js.all_slashes s = true -> s <> "" -> Js.last_char s = Some Js.slash.
Proof.
  induction s as [|c s IH]; [congruence|].
  simpl. intros H _. apply andb_prop in H. destruct H as [Hc Hs].
  apply is_slash_true in Hc. subst c.
  destruct s as [|d s]; [reflexivity|].
  apply IH; [exact Hs | discriminate].
Qed.

Lemma all_slashes_app (s : string) (k : nat) :
  Js.all_slashes (s ++ Js.slashes k) = Js.all_slashes s.
Proof.
  induction s as [|c s IH]; simpl.
  - induction k as [|k IHk]; simpl; auto.
  - now rewrite IH.
Qed.

Lemma all_slashes_slashes (k : nat) : Js.all_slashes (Js.slashes k) = true.
Proof. induction k as [|k IH]; simpl; auto. Qed.

(** Whatever number of slashes is appended to a string that does not end
    in one, the replacement gives the string back. *)
Lemma replace_trailing_slashes_app (core : string) (k : nat) :
  Js.last_char core <> Some Js.slash ->
  Js.replace_trailing_slashes (core ++ Js.slashes k) = core.
Proof.
  induction core as [|c core IH]; intros Hlast.
  - destruct k as [|k]; simpl; [reflexivity|].
    now rewrite all_slashes_slashes.
  - simpl. rewrite all_slashes_app.
    assert (Hno : Js.is_slash c && Js.all_slashes core = false).
    { destruct (Js.is_slash c) eqn:Hc; [|reflexivity].
      destruct (Js.all_slashes core) eqn:Ha; [|reflexivity].
      exfalso. apply Hlast. apply is_slash_true in Hc. subst c.
      destruct core as [|d core]; [reflexivity|].
      change (Js.last_char (String d core) = Some Js.slash).
      apply all_slashes_last; [exact Ha | discriminate]. }
    rewrite Hno. f_equal. apply IH.
    destruct core as [|d core]; [discriminate | exact Hlast].
Qed.

(** Every string is what the replacement leaves of it, followed by
    slashes only; what is left does not end in a slash. *)
Lemma replace_trailing_slashes_split (s : string) :
  exists k,
    s = Js.replace_trailing_slashes s ++ Js.slashes k
    /\ Js.last_char (Js.replace_trailing_slashes s) <> Some Js.slash.
Proof.
  induction s as [|c s [k [E L]]].
  - exists 0%nat. split; [reflexivity | discriminate].
  - simpl. destruct (Js.is_slash c) eqn:Hc; simpl.
    + destruct (Js.all_slashes s) eqn:Ha.
      * apply is_slash_true in Hc. subst c.
        assert (Hs : Js.replace_trailing_slashes s = "").
        { destruct s as [|d s]; [reflexivity|]. simpl in Ha |- *. now rewrite Ha. }
        rewrite Hs in E. simpl in E.
        exists (S k). simpl. split; [now rewrite <- E | discriminate].
      * exists k. simpl. split; [now rewrite <- E|].
        destruct (Js.replace_trailing_slashes s) as [|d t] eqn:Hs.
        -- simpl in E. rewrite E, all_slashes_slashes in Ha. discriminate.
        -- exact L.
    + exists k. simpl. split; [now rewrite <- E|].
      destruct (Js.replace_trailing_slashes s) as [|d t] eqn:Hs.
      * simpl. intros H. inversion H; subst. discriminate.
      * exact L.
Qed.

Lemma idsSegment_quoted_list (labelids : list string) :
  idsSegment labelids = quoted_list labelids.
Proof.
  unfold idsSegment.
  induction labelids as [|id rest IH]; [reflexivity|].
  destruct rest as [|id' rest].
  - reflexivity.
  - assert (step : quoted_list (id :: id' :: rest)
                   = String Js.dquote id ++ String Js.dquote ""
                       ++ "," ++ quoted_list (id' :: rest)) by reflexivity.
    rewrite step, <- IH.
    transitivity ((String Js.dquote id ++ String Js.dquote "")
                    ++ "," ++ Js.join ","
                         (map (fun id => String Js.dquote id ++ String Js.dquote "")
                            (id' :: rest))); [reflexivity|].
    now rewrite append_assoc.
Qed.

(** Each label operation puts exactly one request on the network, at the
    URL it built from its base. *)
Lemma label_requests (accessToken labelId : string) (labelids : list string)
  (context : InvocationContext) (P : Platform) (s : State) :
  let base := graphBaseUrlOf (env P "GRAPH_BASE_URL") in
  fetches (events (invokeUserRightsForLables accessToken context P s))
  = [graphRequest accessToken (userRightsForLablesUrl base)]
  /\ fetches (events (invokeUserRightsForSubLables accessToken labelId context P s))
     = [graphRequest accessToken (userRightsForSubLablesUrl base labelId)]
  /\ fetches (events (invokeLabelInheritance accessToken labelids context P s))
     = [graphRequest accessToken (labelInheritanceUrl base labelids)].
Proof.
  intros base.
  assert (call : forall url logLabel before,
            fetches (events
              (try_catch
                 (bind (process_env "GRAPH_BASE_URL")
                    (fun configured =>
                       bind (log (Context_log context)
                               [LStr (before (graphBaseUrlOf configured))])
                         (fun _ => callGraph accessToken (url (graphBaseUrlOf configured))
                                     logLabel context)))
                 (labelErrorHandler context) P s))
            = [graphRequest accessToken (url base)]).
  { intros url logLabel before.
    unfold try_catch. erewrite bind_returned by reflexivity.
    cbv beta. fold base.
    unfold prepend, callGraph, labelErrorHandler, bind, log, emit, fetch,
      throw, ret, response_text.
    cbn [outcome final events app].
    destruct (network P (fetch_pos s) (graphRequest accessToken (url base))) as [e|r];
      cbn [outcome final events app fetches]; [reflexivity|].
    destruct (ok r); cbn [negb outcome final events app fetches]; reflexivity. }
  split; [|split].
  - exact (call userRightsForLablesUrl "Graph label endpoint response:"
             (fun b => "invokeUserRightsForLables: " ++ userRightsForLablesUrl b)).
  - exact (call (fun b => userRightsForSubLablesUrl b labelId)
             "Graph label endpoint response:"
             (fun b => "invokeUserRightsForSubLables: "
                         ++ userRightsForSubLablesUrl b labelId)).
  - exact (call (fun b => labelInheritanceUrl b labelids)
             "invokeUserRightsForLables response:"
             (fun b => "invokeLabelInheritance: " ++ labelInheritanceUrl b labelids)).
Qed.

(** C9.  [invokeLabelInheritance] asks for one URL, in which the label
    ids stand as a comma-separated list of double-quoted strings, each id
    as it is; for the ids id-1 and id-2 the URL holds the text
    labelIds=[ "id-1" , "id-2" ] (written without the spaces). *)
Theorem label_inheritance_url
  (accessToken : string) (labelids : list string) (context : InvocationContext)
  (P : Platform) (s : State) :
  let base := graphBaseUrlOf (env P "GRAPH_BASE_URL") in
  fetches (events (invokeLabelInheritance accessToken labelids context P s))
  = [graphRequest accessToken
       (base
          ++ "/security/dataSecurityAndGovernance/sensitivityLabels/computeInheritance("
          ++ "labelIds=[" ++ quoted_list labelids ++ "]"
          ++ ",locale='en-US',contentFormats=[" ++ String Js.dquote "File"
          ++ String Js.dquote "])")]
  /\ exists req pre post,
       fetches (events (invokeLabelInheritance accessToken ["id-1"; "id-2"] context P s))
       = [req]
       /\ url req
          = pre ++ "labelIds=[" ++ String Js.dquote "id-1" ++ String Js.dquote ","
                ++ String Js.dquote "id-2" ++ String Js.dquote "]" ++ post.
Proof.
  intros base. split.
  - destruct (label_requests accessToken "" labelids context P s) as (_ & _ & H).
    fold base in H. rewrite H. unfold labelInheritanceUrl.
    rewrite idsSegment_quoted_list. reflexivity.
  - destruct (label_requests accessToken "" ["id-1"; "id-2"] context P s) as (_ & _ & H).
    fold base in H. rewrite H.
    exists (graphRequest accessToken (labelInheritanceUrl base ["id-1"; "id-2"])).
    exists (base ++ "/security/dataSecurityAndGovernance/sensitivityLabels/computeInheritance(").
    exists (",locale='en-US',contentFormats=[" ++ String Js.dquote "File"
              ++ String Js.dquote "])").
    split; [reflexivity|].
    unfold labelInheritanceUrl, graphRequest. cbn [url].
    rewrite append_assoc. reflexivity.
Qed.

(** With the base URL configured, each Purview client puts exactly one
    request on the network. *)
Lemma purview_requests (accessToken base : string) (etag : option string)
  (requestBody : JSON) (P : Platform) (s : State) :
  env P "PURVIEW_BASE_URL" = Some base ->
  Js.truthy base = true ->
  fetches (events (invokeProtectionScopeApi accessToken P s))
  = [protectionScopeRequest accessToken base]
  /\ fetches (events (invokeProcessContentApi accessToken etag requestBody P s))
     = [processContentRequest accessToken etag base requestBody].
Proof.
  intros Henv Hbase.
  unfold invokeProtectionScopeApi, invokeProcessContentApi, try_catch, bind, process_env,
    fetch, log, emit, throw, ret, response_text, response_json.
  cbn [outcome final events app]. rewrite Henv. cbn [outcome final events app].
  rewrite Hbase. cbn [negb outcome final events app].
  split.
  - destruct (network P (fetch_pos s) (protectionScopeRequest accessToken base))
      as [e|r]; cbn [outcome final events app fetches]; [reflexivity|].
    destruct (ok r); cbn [negb outcome final events app fetches];
      [destruct (json r)|]; reflexivity.
  - destruct (network P (fetch_pos s)
                (processContentRequest accessToken etag base requestBody))
      as [e|r]; cbn [outcome final events app fetches]; [reflexivity|].
    destruct (ok r); cbn [negb outcome final events app fetches]; reflexivity.
Qed.

(** C10.  A base URL is used without its trailing slashes, however many
    it has.  Every configured value is some [core] that does not end in a
    slash, followed by [k] slashes; for such a value the two Purview
    clients ask for [core], one slash and their path, and the three label
    operations for [core] followed by their path, which begins with its
    one slash. *)
Theorem base_url_trailing_slashes
  (core : string) (k : nat)
  (accessToken labelId : string) (labelids : list string) (etag : option string)
  (requestBody : JSON) (context : InvocationContext) (P : Platform) (s : State) :
  Js.last_char core <> Some Js.slash ->
  (forall configured, exists core' k',
      configured = core' ++ Js.slashes k' /\ Js.last_char core' <> Some Js.slash)
  /\ Js.replace_trailing_slashes (core ++ Js.slashes k) = core
  /\ (env P "PURVIEW_BASE_URL" = Some (core ++ Js.slashes k) ->
      Js.truthy (core ++ Js.slashes k) = true ->
      map url (fetches (events (invokeProtectionScopeApi accessToken P s)))
      = [core ++ "/me/dataSecurityAndGovernance/protectionScopes/compute"]
      /\ map url (fetches (events
                    (invokeProcessContentApi accessToken etag requestBody P s)))
         = [core ++ "/me/dataSecurityAndGovernance/processContent"])
  /\ (env P "GRAPH_BASE_URL" = Some (core ++ Js.slashes k) ->
      Js.truthy core = true ->
      map url (fetches (events (invokeUserRightsForLables accessToken context P s)))
      = [core ++ "/security/dataSecurityAndGovernance/sensitivityLabels?$expand=rights,sublabels"]
      /\ map url (fetches (events
                    (invokeUserRightsForSubLables accessToken labelId context P s)))
         = [core ++ "/security/dataSecurityAndGovernance/sensitivityLabels/" ++ labelId
                 ++ "/rights"]
      /\ map url (fetches (events
                    (invokeLabelInheritance accessToken labelids context P s)))
         = [labelInheritanceUrl core labelids]).
Proof.
  intros Hlast.
  pose proof (replace_trailing_slashes_app core k Hlast) as Hstrip.
  split.
  { intros configured.
    destruct (replace_trailing_slashes_split configured) as [k' [E L]].
    exists (Js.replace_trailing_slashes configured), k'. split; assumption. }
  split; [exact Hstrip|]. split.
  - intros Henv Hbase.
    destruct (purview_requests accessToken _ etag requestBody P s Henv Hbase) as (H1 & H2).
    rewrite H1, H2. unfold protectionScopeRequest, processContentRequest, apiUrl.
    cbn [map url]. rewrite Hstrip. split; reflexivity.
  - intros Henv Hcore.
    destruct (label_requests accessToken labelId labelids context P s) as (H1 & H2 & H3).
    rewrite Henv in H1, H2, H3. unfold graphBaseUrlOf in H1, H2, H3.
    cbn [option_map] in H1, H2, H3. rewrite Hstrip in H1, H2, H3.
    unfold Js.or_else in H1, H2, H3. rewrite Hcore in H1, H2, H3.
    rewrite H1, H2, H3. repeat split.
Qed.

(* ================================================================== *)
(** ** Concrete runs *)
(* ================================================================== *)

(** The claim C1 as it is worded fails when the upload submission is
    refused: both modes are "evaluateOffline", the run ends with the
    refusal, and the download submission is never made. *)
Lemma enqueue_download_skipped_after_refusal :
  let r := enqueueOfflinePurviewTasksAsync "token" (Some "abc") "app" "app-id"
             "evaluateOffline" "evaluateOffline" "hello" "world" "sess-1" 3
             Sample.context Sample.down initial in
  ~ (submitted "world" "downloadText" (3 + 1) (events r) = true
     <-> "evaluateOffline" = "evaluateOffline").
Proof.
  intros r [_ H]. specialize (H eq_refl). vm_compute in H. discriminate.
Qed.

Lemma enqueue_aborts_after_failed_upload_witness :
  let r := enqueueOfflinePurviewTasksAsync "token" (Some "abc") "app" "app-id"
             "evaluateOffline" "evaluateOffline" "hello" "world" "sess-1" 3
             Sample.context Sample.down initial in
  outcome r = Thrown (new_Error "API call failed with status 403: Forbidden")
  /\ submitted "hello" "uploadText" 3 (events r) = true
  /\ submitted "world" "downloadText" (3 + 1) (events r) = false
  /\ length (submissions (events r)) = 1%nat
  /\ (length (fetches (events r)) <= 1)%nat.
Proof.
  apply (enqueue_aborts_after_failed_upload "token" (Some "abc") "app" "app-id"
           "evaluateOffline" "evaluateOffline" "hello" "world" "sess-1" 3
           Sample.context Sample.down initial
           (new_Error "API call failed with status 403: Forbidden")).
  - reflexivity.
  - reflexivity.
  - vm_compute. reflexivity.
Defined.

(** The claim C3 as it is worded fails on the inputs of the specification's
    own test: the returned document has no top-level [contentEntries],
    [activityMetadata] or [protectedAppMetadata]. *)
Lemma document_fields_not_at_top_level :
  ~ (exists doc,
       outcome (constructProcessContentRequestBody "hello" "app" 3 "sess-1" "uploadText"
                  "app-id" Sample.up initial) = Returned doc
       /\ Json.path [Json.Key "contentEntries"; Json.Idx 0; Json.Key "sequenceNumber"] doc
          = Some (JNum 3)
       /\ Json.path [Json.Key "contentEntries"; Json.Idx 0; Json.Key "correlationId"] doc
          = Some (JStr "sess-1")
       /\ Json.path [Json.Key "contentEntries"; Json.Idx 0; Json.Key "content";
                     Json.Key "data"] doc
          = Some (JStr "hello")
       /\ Json.path [Json.Key "activityMetadata"; Json.Key "activity"] doc
          = Some (JStr "uploadText")
       /\ Json.path [Json.Key "protectedAppMetadata"; Json.Key "applicationLocation";
                     Json.Key "value"] doc
          = Some (JStr "app-id")).
Proof.
  intros (doc & E & H & _).
  vm_compute in E. inversion E; subst doc. vm_compute in H. discriminate.
Qed.

(** The claim C4 as it is worded fails when the clock moves between the
    two readings: the two timestamps are one millisecond apart. *)
Lemma document_timestamps_differ :
  ~ (exists doc,
       outcome (constructProcessContentRequestBody "hello" "app" 3 "sess-1" "uploadText"
                  "app-id" Sample.up initial) = Returned doc
       /\ Json.path p_createdDateTime doc = Json.path p_modifiedDateTime doc).
Proof.
  intros (doc & E & H).
  vm_compute in E. inversion E; subst doc. vm_compute in H. discriminate.
Qed.

(** The claim C7 as it is worded fails on a success answer whose body is
    not JSON: the transport resolves the request with status 200 and the
    body "done", and the operation does not return a parsed body with the
    etag; it fails with the error [response.json()] rejects with. *)
Lemma protection_scope_body_not_json :
  let run := invokeProtectionScopeApi "token" Cases.terse initial in
  ~ (network Cases.terse (fetch_pos initial)
       (protectionScopeRequest "token" "https://purview.example/v1//")
     = Resolved Cases.plain ->
     ok Cases.plain = true ->
     exists parsed,
       outcome run
       = Returned {| body := parsed; etag := Http.get "etag" (headers Cases.plain) |}).
Proof.
  intros run H. destruct (H eq_refl eq_refl) as (parsed & E).
  vm_compute in E. discriminate.
Qed.

Lemma generateGuid_pattern_witness :
  unit_draws Sample.up
  /\ exists guid,
       outcome (generateGuid Sample.up initial) = Returned guid
       /\ String.length guid = 36%nat
       /\ (forall i, In i [8; 13; 18; 23]%nat -> String.get i guid = Some "-"%char)
       /\ String.get 14 guid = Some "4"%char
       /\ (exists c, String.get 19 guid = Some c /\ In c ["8"; "9"; "a"; "b"]%char)
       /\ (forall i, (i < 36)%nat -> ~ In i [8; 13; 14; 18; 19; 23]%nat ->
             exists c, String.get i guid = Some c /\ is_lower_hex c = true).
Proof.
  assert (U : unit_draws Sample.up).
  { intros n. unfold Sample.up, Sample.platform, Qle, Qlt.
    cbn [Math_random]. unfold Sample.draws. cbn [Qnum Qden].
    pose proof (Nat.mod_upper_bound n 16). lia. }
  split; [exact U | exact (generateGuid_pattern Sample.up initial U)].
Defined.

Lemma missing_base_url_is_fatal_witness :
  env Sample.bare "PURVIEW_BASE_URL" = None
  /\ outcome (invokeProtectionScopeApi "token" Sample.bare initial)
     = Thrown missing_purview_base_url
  /\ fetches (events (invokeProtectionScopeApi "token" Sample.bare initial)) = []
  /\ outcome (invokeProcessContentApi "token" (Some "abc") (JObj []) Sample.bare initial)
     = Thrown missing_purview_base_url
  /\ fetches (events (invokeProcessContentApi "token" (Some "abc") (JObj []) Sample.bare
                        initial)) = [].
Proof.
  split; [reflexivity|].
  destruct (missing_base_url_is_fatal "token" (Some "abc") (JObj []) Sample.bare initial
              eq_refl) as (H1 & H2 & _ & H3 & H4 & _).
  repeat split; assumption.
Defined.

Lemma protection_scope_response_witness :
  outcome (invokeProtectionScopeApi "token" Sample.up initial)
  = Returned {| body := JObj [("ok", JBool true)]; etag := Some "abc" |}
  /\ outcome (invokeProtectionScopeApi "token" Sample.down initial)
     = Thrown (new_Error "API call failed with status 403: Forbidden").
Proof.
  split.
  - destruct (protection_scope_response "token" "https://purview.example/v1//"
                Sample.up initial Sample.accepted eq_refl eq_refl eq_refl)
      as (_ & H & _).
    exact (H eq_refl _ eq_refl).
  - destruct (protection_scope_response "token" "https://purview.example/v1//"
                Sample.down initial Sample.refused eq_refl eq_refl eq_refl)
      as (H & _).
    exact (H eq_refl).
Defined.

Lemma base_url_trailing_slashes_witness :
  Js.last_char "https://api.example/v1" <> Some Js.slash
  /\ map url (fetches (events (invokeProtectionScopeApi "token" Sample.same initial)))
     = ["https://api.example/v1/me/dataSecurityAndGovernance/protectionScopes/compute"]
  /\ map url (fetches (events
                (invokeProcessContentApi "token" None (JObj []) Sample.same initial)))
     = ["https://api.example/v1/me/dataSecurityAndGovernance/processContent"]
  /\ map url (fetches (events
                (invokeUserRightsForSubLables "token" "label-1" Sample.context Sample.same
                   initial)))
     = ["https://api.example/v1/security/dataSecurityAndGovernance/sensitivityLabels/label-1/rights"].
Proof.
  assert (L : Js.last_char "https://api.example/v1" <> Some Js.slash)
    by (simpl; discriminate).
  split; [exact L|].
  destruct (base_url_trailing_slashes "https://api.example/v1" 2 "token" "label-1"
              ["id-1"; "id-2"] None (JObj []) Sample.context Sample.same initial L)
    as (_ & _ & HP & HG).
  destruct (HP eq_refl eq_refl) as (H1 & H2).
  destruct (HG eq_refl eq_refl) as (_ & H3 & _).
  repeat split; assumption.
Defined.

(* ================================================================== *)
(** ** The clients, run by run *)
(* ================================================================== *)

(** The whole run of the protection-scope client once the base URL is
    configured, by what the transport answers. *)
Lemma invokeProtectionScopeApi_configured
  (accessToken base : string) (P : Platform) (s : State) :
  env P "PURVIEW_BASE_URL" = Some base ->
  Js.truthy base = true ->
  let req := protectionScopeRequest accessToken base in
  invokeProtectionScopeApi accessToken P s
  = match network P (fetch_pos s) req with
    | Rejected e =>
        {| outcome := Thrown e; final := after_fetch s;
           events := [EFetch req;
                      ELog Console_error [LStr "Error invoking API:"; LErr e]] |}
    | Resolved r =>
        if ok r then
          match json r with
          | inr parsed =>
              {| outcome := Returned {| body := parsed;
                                        etag := Http.get "etag" (headers r) |};
                 final := after_fetch s; events := [EFetch req] |}
          | inl e =>
              {| outcome := Thrown e; final := after_fetch s;
                 events := [EFetch req;
                            ELog Console_error [LStr "Error invoking API:"; LErr e]] |}
          end
        else
          {| outcome := Thrown (api_error r); final := after_fetch s;
             events := [EFetch req;
                        ELog Console_error
                          [LStr "Error invoking API:"; LErr (api_error r)]] |}
    end.
Proof.
  intros Henv Hbase req.
  unfold invokeProtectionScopeApi, try_catch, bind, process_env, fetch, log, emit,
    throw, ret, response_text, response_json.
  cbn [outcome final events app]. rewrite Henv. cbn [outcome final events app].
  rewrite Hbase. cbn [negb outcome final events app]. fold req.
  destruct (network P (fetch_pos s) req) as [e|r];
    cbn [outcome final events app]; [reflexivity|].
  destruct (ok r); cbn [negb outcome final events app];
    [destruct (json r)|]; reflexivity.
Qed.

(** The whole run of the content-processing client once the base URL is
    configured. *)
Lemma invokeProcessContentApi_configured
  (accessToken base : string) (etag : option string) (requestBody : JSON)
  (P : Platform) (s : State) :
  env P "PURVIEW_BASE_URL" = Some base ->
  Js.truthy base = true ->
  let req := processContentRequest accessToken etag base requestBody in
  let call := EProcessContent accessToken etag requestBody in
  invokeProcessContentApi accessToken etag requestBody P s
  = match network P (fetch_pos s) req with
    | Rejected e =>
        {| outcome := Thrown e; final := after_fetch s;
           events := [call; EFetch req;
                      ELog Console_error
                        [LStr "Error invoking Process Content API:"; LErr e]] |}
    | Resolved r =>
        if ok r then
          {| outcome := Returned {| content_body := text r;
                                    content_headers := headers r |};
             final := after_fetch s; events := [call; EFetch req] |}
        else
          {| outcome := Thrown (api_error r); final := after_fetch s;
             events := [call; EFetch req;
                        ELog Console_error
                          [LStr "Error invoking Process Content API:";
                           LErr (api_error r)]] |}
    end.
Proof.
  intros Henv Hbase req call.
  unfold invokeProcessContentApi, try_catch, bind, process_env, fetch, log, emit,
    throw, ret, response_text.
  cbn [outcome final events app]. rewrite Henv. cbn [outcome final events app].
  rewrite Hbase. cbn [negb outcome final events app]. fold req call.
  destruct (network P (fetch_pos s) req) as [e|r];
    cbn [outcome final events app]; [reflexivity|].
  destruct (ok r); cbn [negb outcome final events app]; reflexivity.
Qed.

(** The whole run of both Purview clients while the base URL is absent or
    empty. *)
Lemma purview_unconfigured
  (accessToken : string) (etag : option string) (requestBody : JSON)
  (P : Platform) (s : State) :
  Js.truthy_opt (env P "PURVIEW_BASE_URL") = false ->
  invokeProtectionScopeApi accessToken P s
  = {| outcome := Thrown missing_purview_base_url; final := s;
       events := [ELog Console_error
                    [LStr "Error invoking API:"; LErr missing_purview_base_url]] |}
  /\ invokeProcessContentApi accessToken etag requestBody P s
     = {| outcome := Thrown missing_purview_base_url; final := s;
          events := [EProcessContent accessToken etag requestBody;
                     ELog Console_error
                       [LStr "Error invoking Process Content API:";
                        LErr missing_purview_base_url]] |}.
Proof.
  intros H.
  unfold invokeProtectionScopeApi, invokeProcessContentApi, try_catch, bind, process_env,
    fetch, log, emit, throw, ret, response_text, response_json.
  cbn [outcome final events app].
  destruct (env P "PURVIEW_BASE_URL") as [base|]; cbn [outcome final events app].
  - cbn [Js.truthy_opt] in H. rewrite H. cbn [negb outcome final events app].
    split; reflexivity.
  - split; reflexivity.
Qed.

(** The whole run of a label operation: [url] builds its URL from the
    base, [before] is the line it logs first and [logLabel] the line it
    logs the body under. *)
Lemma label_operation_run
  (accessToken : string) (context : InvocationContext)
  (url before : string -> string) (logLabel : string) (P : Platform) (s : State) :
  let base := graphBaseUrlOf (env P "GRAPH_BASE_URL") in
  let req := graphRequest accessToken (url base) in
  let said := ELog (Context_log context) [LStr (before base)] in
  try_catch
    (bind (process_env "GRAPH_BASE_URL")
       (fun configured =>
          bind (log (Context_log context) [LStr (before (graphBaseUrlOf configured))])
            (fun _ => callGraph accessToken (url (graphBaseUrlOf configured))
                        logLabel context)))
    (labelErrorHandler context) P s
  = match network P (fetch_pos s) req with
    | Rejected e =>
        {| outcome := Thrown e; final := after_fetch s;
           events := [said; EFetch req;
                      ELog (Context_error context)
                        [LStr "Error retrieving label info:"; LErr e]] |}
    | Resolved r =>
        if ok r then
          {| outcome := Returned (text r); final := after_fetch s;
             events := [said; EFetch req;
                        ELog (Context_log context) [LStr logLabel; LStr (text r)]] |}
        else
          {| outcome := Thrown (label_error r); final := after_fetch s;
             events := [said; EFetch req;
                        ELog (Context_error context)
                          [LStr "Error retrieving label info:";
                           LErr (label_error r)]] |}
    end.
Proof.
  intros base req said.
  unfold try_catch. erewrite bind_returned by reflexivity.
  cbv beta. fold base.
  unfold prepend, callGraph, labelErrorHandler, bind, log, emit, fetch,
    throw, ret, response_text.
  cbn [outcome final events app]. fold req said.
  destruct (network P (fetch_pos s) req) as [e|r];
    cbn [outcome final events app]; [reflexivity|].
  destruct (ok r); cbn [negb outcome final events app]; reflexivity.
Qed.

Lemma invokeUserRightsForLables_run
  (accessToken : string) (context : InvocationContext) (P : Platform) (s : State) :
  invokeUserRightsForLables accessToken context P s
  = try_catch
      (bind (process_env "GRAPH_BASE_URL")
         (fun configured =>
            bind (log (Context_log context)
                    [LStr ("invokeUserRightsForLables: "
                             ++ userRightsForLablesUrl (graphBaseUrlOf configured))])
              (fun _ => callGraph accessToken
                          (userRightsForLablesUrl (graphBaseUrlOf configured))
                          "Graph label endpoint response:" context)))
      (labelErrorHandler context) P s.
Proof. reflexivity. Qed.

Lemma invokeUserRightsForSubLables_run
  (accessToken labelId : string) (context : InvocationContext)
  (P : Platform) (s : State) :
  invokeUserRightsForSubLables accessToken labelId context P s
  = try_catch
      (bind (process_env "GRAPH_BASE_URL")
         (fun configured =>
            bind (log (Context_log context)
                    [LStr ("invokeUserRightsForSubLables: "
                             ++ userRightsForSubLablesUrl (graphBaseUrlOf configured)
                                  labelId)])
              (fun _ => callGraph accessToken
                          (userRightsForSubLablesUrl (graphBaseUrlOf configured) labelId)
                          "Graph label endpoint response:" context)))
      (labelErrorHandler context) P s.
Proof. reflexivity. Qed.

Lemma invokeLabelInheritance_run
  (accessToken : string) (labelids : list string) (context : InvocationContext)
  (P : Platform) (s : State) :
  invokeLabelInheritance accessToken labelids context P s
  = try_catch
      (bind (process_env "GRAPH_BASE_URL")
         (fun configured =>
            bind (log (Context_log context)
                    [LStr ("invokeLabelInheritance: "
                             ++ labelInheritanceUrl (graphBaseUrlOf configured) labelids)])
              (fun _ => callGraph accessToken
                          (labelInheritanceUrl (graphBaseUrlOf configured) labelids)
                          "invokeUserRightsForLables response:" context)))
      (labelErrorHandler context) P s.
Proof. reflexivity. Qed.

(** Rewrite the three label operations to their runs. *)
Ltac run_labels :=
  rewrite ?invokeUserRightsForLables_run, ?invokeUserRightsForSubLables_run,
    ?invokeLabelInheritance_run;
  rewrite ?(label_operation_run _ _ userRightsForLablesUrl
              (fun b => "invokeUserRightsForLables: " ++ userRightsForLablesUrl b));
  rewrite ?(label_operation_run _ _ (fun b => userRightsForSubLablesUrl b _)
              (fun b => "invokeUserRightsForSubLables: "
                          ++ userRightsForSubLablesUrl b _));
  rewrite ?(label_operation_run _ _ (fun b => labelInheritanceUrl b _)
              (fun b => "invokeLabelInheritance: " ++ labelInheritanceUrl b _));
  cbv zeta.

(** X1.  A label operation whose own request resolves returns the body
    as text, unparsed, on a status in 200-299, and fails on any other
    status with an error whose message holds the status and the body text.
    The request of each operation is the GET it builds from the configured
    base URL. *)
Theorem label_operations_response
  (accessToken labelId : string) (labelids : list string) (context : InvocationContext)
  (P : Platform) (s : State) (r : Response) :
  let base := graphBaseUrlOf (env P "GRAPH_BASE_URL") in
  let answered (url : string) :=
    network P (fetch_pos s) (graphRequest accessToken url) = Resolved r in
  let expected := if ok r then Returned (text r) else Thrown (label_error r) in
  (answered (userRightsForLablesUrl base) ->
     outcome (invokeUserRightsForLables accessToken context P s) = expected)
  /\ (answered (userRightsForSubLablesUrl base labelId) ->
        outcome (invokeUserRightsForSubLables accessToken labelId context P s) = expected)
  /\ (answered (labelInheritanceUrl base labelids) ->
        outcome (invokeLabelInheritance accessToken labelids context P s) = expected).
Proof.
  intros base answered expected. subst base answered expected. run_labels.
  repeat split; intros Hnet; rewrite Hnet; destruct (ok r); reflexivity.
Qed.

Lemma graphBaseUrlOf_default (configured : option string) :
  configured = None \/ (exists k, configured = Some (Js.slashes k)) ->
  graphBaseUrlOf configured = default_graph_base_url.
Proof.
  intros [-> | [k ->]]; [reflexivity|].
  unfold graphBaseUrlOf. cbn [option_map].
  change (Js.slashes k) with ("" ++ Js.slashes k).
  rewrite replace_trailing_slashes_app by discriminate. reflexivity.
Qed.

(** X2.  With [GRAPH_BASE_URL] absent, empty or made of slashes only, the
    three label operations still send their request: they fall back to the
    public Graph v1.0 endpoint instead of failing. *)
Theorem label_operations_default_base
  (accessToken labelId : string) (labelids : list string) (context : InvocationContext)
  (P : Platform) (s : State) :
  env P "GRAPH_BASE_URL" = None
  \/ (exists k, env P "GRAPH_BASE_URL" = Some (Js.slashes k)) ->
  map url (fetches (events (invokeUserRightsForLables accessToken context P s)))
  = ["https://graph.microsoft.com/v1.0/security/dataSecurityAndGovernance/sensitivityLabels?$expand=rights,sublabels"]
  /\ map url (fetches (events
                (invokeUserRightsForSubLables accessToken labelId context P s)))
     = ["https://graph.microsoft.com/v1.0/security/dataSecurityAndGovernance/sensitivityLabels/"
          ++ labelId ++ "/rights"]
  /\ map url (fetches (events (invokeLabelInheritance accessToken labelids context P s)))
     = [labelInheritanceUrl "https://graph.microsoft.com/v1.0" labelids].
Proof.
  intros H. apply graphBaseUrlOf_default in H.
  destruct (label_requests accessToken labelId labelids context P s) as (H1 & H2 & H3).
  rewrite H in H1, H2, H3. rewrite H1, H2, H3. repeat split.
Qed.

(** X3.  An empty [PURVIEW_BASE_URL] counts as a missing one: both
    Purview clients fail with the configuration error and send nothing. *)
Theorem empty_base_url_is_fatal
  (accessToken : string) (etag : option string) (requestBody : JSON)
  (P : Platform) (s : State) :
  env P "PURVIEW_BASE_URL" = Some "" ->
  let scope := invokeProtectionScopeApi accessToken P s in
  let content := invokeProcessContentApi accessToken etag requestBody P s in
  outcome scope = Thrown missing_purview_base_url
  /\ fetches (events scope) = []
  /\ final scope = s
  /\ outcome content = Thrown missing_purview_base_url
  /\ fetches (events content) = []
  /\ final content = s.
Proof.
  intros H scope content.
  destruct (purview_unconfigured accessToken etag requestBody P s) as (E1 & E2).
  { rewrite H. reflexivity. }
  subst scope content. rewrite E1, E2. repeat split.
Qed.

(** X4.  When the transport rejects the request a client hands to it,
    that client fails with the very error the transport gave, and that
    request is the only one it made.  This holds of each of the five
    clients on its own request: the two Purview clients post to the
    configured base URL, the three label operations get from theirs. *)
Theorem transport_failure_propagates
  (accessToken labelId : string) (labelids : list string) (etag : option string)
  (requestBody : JSON) (context : InvocationContext) (P : Platform) (s : State)
  (e : Error) :
  let graph := graphBaseUrlOf (env P "GRAPH_BASE_URL") in
  let rejected (req : Request) := network P (fetch_pos s) req = Rejected e in
  let failed {A} (req : Request) (r : Run A) :=
    outcome r = Thrown e /\ fetches (events r) = [req] in
  (forall base, env P "PURVIEW_BASE_URL" = Some base -> Js.truthy base = true ->
     let req := protectionScopeRequest accessToken base in
     rejected req -> failed req (invokeProtectionScopeApi accessToken P s))
  /\ (forall base, env P "PURVIEW_BASE_URL" = Some base -> Js.truthy base = true ->
        let req := processContentRequest accessToken etag base requestBody in
        rejected req -> failed req (invokeProcessContentApi accessToken etag requestBody P s))
  /\ (let req := graphRequest accessToken (userRightsForLablesUrl graph) in
      rejected req -> failed req (invokeUserRightsForLables accessToken context P s))
  /\ (let req := graphRequest accessToken (userRightsForSubLablesUrl graph labelId) in
      rejected req ->
      failed req (invokeUserRightsForSubLables accessToken labelId context P s))
  /\ (let req := graphRequest accessToken (labelInheritanceUrl graph labelids) in
      rejected req ->
      failed req (invokeLabelInheritance accessToken labelids context P s)).
Proof.
  intros graph rejected failed. subst graph rejected failed. cbv beta zeta.
  split; [|split].
  - intros base Henv Hbase Hnet.
    rewrite (invokeProtectionScopeApi_configured accessToken base P s Henv Hbase).
    cbv zeta. rewrite Hnet. split; reflexivity.
  - intros base Henv Hbase Hnet.
    rewrite (invokeProcessContentApi_configured accessToken base etag requestBody P s
               Henv Hbase).
    cbv zeta. rewrite Hnet. split; reflexivity.
  - run_labels. split; [|split]; intros Hnet; rewrite Hnet; split; reflexivity.
Qed.

(** X5.  Once its request resolves, the content-processing client returns
    the body as text together with all the response headers on a status in
    200-299, whether or not the body is JSON, and fails on any other
    status with an error whose message holds the status and the body. *)
Theorem process_content_response
  (accessToken base : string) (etag : option string) (requestBody : JSON)
  (P : Platform) (s : State) (r : Response) :
  env P "PURVIEW_BASE_URL" = Some base ->
  Js.truthy base = true ->
  network P (fetch_pos s) (processContentRequest accessToken etag base requestBody)
  = Resolved r ->
  outcome (invokeProcessContentApi accessToken etag requestBody P s)
  = if ok r
    then Returned {| content_body := text r; content_headers := headers r |}
    else Thrown (new_Error ("API call failed with status "
                              ++ Js.Number_toString (status r) ++ ": " ++ text r)).
Proof.
  intros Henv Hbase Hnet.
  rewrite (invokeProcessContentApi_configured accessToken base etag requestBody P s
             Henv Hbase).
  cbv zeta. rewrite Hnet. destruct (ok r); reflexivity.
Qed.

(** The two Purview clients log the error they throw, once, on the
    console. *)
Lemma purview_errors_logged
  (accessToken : string) (etag : option string) (requestBody : JSON)
  (P : Platform) (s : State) :
  errors_logged (events (invokeProtectionScopeApi accessToken P s))
  = match thrown (invokeProtectionScopeApi accessToken P s) with
    | Some e => [(Console_error, e)] | None => [] end
  /\ errors_logged (events (invokeProcessContentApi accessToken etag requestBody P s))
     = match thrown (invokeProcessContentApi accessToken etag requestBody P s) with
       | Some e => [(Console_error, e)] | None => [] end.
Proof.
  destruct (Js.truthy_opt (env P "PURVIEW_BASE_URL")) eqn:Hcfg.
  - destruct (env P "PURVIEW_BASE_URL") as [base|] eqn:Henv; [|discriminate].
    cbn [Js.truthy_opt] in Hcfg.
    rewrite (invokeProtectionScopeApi_configured accessToken base P s Henv Hcfg).
    rewrite (invokeProcessContentApi_configured accessToken base etag requestBody P s
               Henv Hcfg).
    cbv zeta.
    destruct (network P (fetch_pos s) (protectionScopeRequest accessToken base))
      as [e1|r1];
      [|destruct (ok r1); [destruct (json r1)|]];
      (destruct (network P (fetch_pos s)
                   (processContentRequest accessToken etag base requestBody))
         as [e2|r2]; [|destruct (ok r2)]);
      split; reflexivity.
  - destruct (purview_unconfigured accessToken etag requestBody P s Hcfg) as (E1 & E2).
    rewrite E1, E2. split; reflexivity.
Qed.

(** X6.  Each client hands an error to its logging sink exactly when it
    fails, once, and it is the error it then throws: [console.error] for
    the two Purview clients, [context.error] for the label operations. *)
Theorem client_errors_logged_once
  (accessToken labelId : string) (labelids : list string) (etag : option string)
  (requestBody : JSON) (context : InvocationContext) (P : Platform) (s : State) :
  let logged {A} (sink : Sink) (r : Run A) :=
    errors_logged (events r)
    = match thrown r with Some e => [(sink, e)] | None => [] end in
  logged Console_error (invokeProtectionScopeApi accessToken P s)
  /\ logged Console_error (invokeProcessContentApi accessToken etag requestBody P s)
  /\ logged (Context_error context) (invokeUserRightsForLables accessToken context P s)
  /\ logged (Context_error context)
       (invokeUserRightsForSubLables accessToken labelId context P s)
  /\ logged (Context_error context)
       (invokeLabelInheritance accessToken labelids context P s).
Proof.
  intros logged. subst logged. cbv beta.
  destruct (purview_errors_logged accessToken etag requestBody P s) as (H1 & H2).
  split; [exact H1|]. split; [exact H2|].
  run_labels.
  repeat split;
    match goal with
    | |- context [network P (fetch_pos s) ?req] =>
        destruct (network P (fetch_pos s) req) as [e|r];
          [reflexivity | destruct (ok r); reflexivity]
    end.
Qed.

(** X7.  Whatever the transport does, every request of the two Purview
    clients is a POST with a JSON body and every request of the three
    label operations a GET without one, all under [Bearer accessToken];
    a Purview client sends at most one request and a label operation
    exactly one. *)
Theorem requests_carry_bearer_token
  (accessToken labelId : string) (labelids : list string) (etag : option string)
  (requestBody : JSON) (context : InvocationContext) (P : Platform) (s : State) :
  let posts {A} (r : Run A) :=
    Forall (is_purview_post accessToken) (fetches (events r))
    /\ (length (fetches (events r)) <= 1)%nat in
  let gets {A} (r : Run A) :=
    Forall (is_graph_get accessToken) (fetches (events r))
    /\ length (fetches (events r)) = 1%nat in
  posts (invokeProtectionScopeApi accessToken P s)
  /\ posts (invokeProcessContentApi accessToken etag requestBody P s)
  /\ gets (invokeUserRightsForLables accessToken context P s)
  /\ gets (invokeUserRightsForSubLables accessToken labelId context P s)
  /\ gets (invokeLabelInheritance accessToken labelids context P s).
Proof.
  intros posts gets. subst posts gets. cbv beta.
  assert (post1 : forall base, is_purview_post accessToken
                                 (protectionScopeRequest accessToken base)).
  { intros base. repeat split. discriminate. }
  assert (post2 : forall base, is_purview_post accessToken
                                 (processContentRequest accessToken etag base requestBody)).
  { intros base. repeat split. discriminate. }
  assert (get1 : forall u, is_graph_get accessToken (graphRequest accessToken u)).
  { intros u. repeat split. }
  destruct (label_requests accessToken labelId labelids context P s) as (L1 & L2 & L3).
  rewrite L1, L2, L3.
  assert (purview :
            (Forall (is_purview_post accessToken)
               (fetches (events (invokeProtectionScopeApi accessToken P s)))
             /\ (length (fetches (events (invokeProtectionScopeApi accessToken P s)))
                 <= 1)%nat)
            /\ (Forall (is_purview_post accessToken)
                  (fetches (events
                     (invokeProcessContentApi accessToken etag requestBody P s)))
                /\ (length (fetches (events
                      (invokeProcessContentApi accessToken etag requestBody P s)))
                    <= 1)%nat)).
  { destruct (Js.truthy_opt (env P "PURVIEW_BASE_URL")) eqn:Hcfg.
    - destruct (env P "PURVIEW_BASE_URL") as [base|] eqn:Henv; [|discriminate].
      cbn [Js.truthy_opt] in Hcfg.
      destruct (purview_requests accessToken base etag requestBody P s Henv Hcfg)
        as (F1 & F2).
      rewrite F1, F2. cbn [length].
      repeat split; auto.
    - destruct (purview_unconfigured accessToken etag requestBody P s Hcfg) as (E1 & E2).
      rewrite E1, E2. cbn [events fetches length]. repeat split; auto. }
  destruct purview as (P1 & P2).
  split; [exact P1|]. split; [exact P2|].
  cbn [length]. repeat split; auto.
Qed.

(* ================================================================== *)
(** ** The orchestrator, run by run *)
(* ================================================================== *)

Lemma errors_logged_app (a b : list Event) :
  errors_logged (a ++ b) = (errors_logged a ++ errors_logged b)%list.
Proof.
  induction a as [|e a IH]; [reflexivity|].
  destruct e; cbn [errors_logged app]; rewrite ?IH, ?app_assoc; reflexivity.
Qed.

(** The whole run of one branch, in terms of the submission it makes. *)
Lemma submitBranch_eq
  (accessToken : string) (etag : option string)
  (content name : string) (sequenceNo : Z) (sessionId activity applicationId : string)
  (handling requestLine bodyLine headersLine : string) (context : InvocationContext)
  (P : Platform) (s : State) :
  exists identifier,
    let doc :=
      processContentDocument content name sequenceNo sessionId activity applicationId
        identifier (Js.toISOString (Date_now P (clock_pos s)))
        (Js.toISOString (Date_now P (S (clock_pos s)))) in
    let s1 := {| rand_pos := (rand_pos s + 31)%nat; clock_pos := S (S (clock_pos s));
                 fetch_pos := fetch_pos s |} in
    let i := invokeProcessContentApi accessToken etag doc P s1 in
    outcome (generateGuid P s) = Returned identifier
    /\ submitBranch accessToken etag content name sequenceNo sessionId activity
         applicationId (handling, requestLine, bodyLine, headersLine) context P s
       = {| outcome := match outcome i with
                       | Returned _ => Returned tt
                       | Thrown e => Thrown e
                       end;
            final := final i;
            events :=
              [ELog (Context_log context) [LStr handling];
               ELog (Context_log context) [LStr requestLine];
               ELog (Context_log context) [LStr (Json.stringify doc)]]
                ++ events i
                ++ match outcome i with
                   | Returned r =>
                       [ELog (Context_log context) [LStr bodyLine; LStr (content_body r)];
                        ELog (Context_log context)
                          [LStr headersLine;
                           LStr (Json.stringify (Http.fromEntries (content_headers r)))]]
                   | Thrown _ => []
                   end |}.
Proof.
  destruct (generateGuid_run P s) as [identifier [EG _]].
  exists identifier. cbv zeta. split; [rewrite EG; reflexivity|].
  assert (EC : constructProcessContentRequestBody content name sequenceNo sessionId
                 activity applicationId P s
               = {| outcome :=
                      Returned (processContentDocument content name sequenceNo sessionId
                                  activity applicationId identifier
                                  (Js.toISOString (Date_now P (clock_pos s)))
                                  (Js.toISOString (Date_now P (S (clock_pos s)))));
                    final := {| rand_pos := (rand_pos s + 31)%nat;
                                clock_pos := S (S (clock_pos s));
                                fetch_pos := fetch_pos s |};
                    events := [] |}).
  { unfold constructProcessContentRequestBody, bind. rewrite EG. reflexivity. }
  unfold submitBranch.
  erewrite bind_returned by reflexivity.
  erewrite bind_returned by exact EC.
  erewrite bind_returned by reflexivity.
  erewrite bind_returned by reflexivity.
  match goal with
  | |- context [invokeProcessContentApi accessToken etag ?d P ?s1] =>
      destruct (invokeProcessContentApi accessToken etag d P s1) as [o f evs] eqn:EI
  end.
  destruct o as [r|e].
  - erewrite bind_returned by exact EI.
    unfold prepend, bind, log, emit. cbn [outcome final events app].
    rewrite ?app_nil_r. reflexivity.
  - erewrite bind_thrown by exact EI.
    unfold prepend. cbn [outcome final events app].
    rewrite ?app_nil_r. reflexivity.
Qed.

(** The whole run of the orchestrator in terms of its branches: the
    upload branch from the start state, the download branch from where the
    upload branch stopped, and the [catch] block after the first failure. *)
Lemma enqueueOfflinePurviewTasksAsync_eq
  (accessToken : string) (etag : option string)
  (name applicationId uploadTextMode downloadTextMode prompt response sessionId : string)
  (sequenceNo : Z) (context : InvocationContext) (P : Platform) (s : State) :
  let up := String.eqb uploadTextMode "evaluateOffline" in
  let down := String.eqb downloadTextMode "evaluateOffline" in
  let bU := submitBranch accessToken etag prompt name sequenceNo sessionId
              "uploadText" applicationId uploadSaid context P s in
  let s2 := if up then final bU else s in
  let bD := submitBranch accessToken etag response name (Js.plus sequenceNo 1) sessionId
              "downloadText" applicationId downloadSaid context P s2 in
  let caught e :=
    [ELog (Context_error context) [LStr "Error invoking ProcessContent API"; LErr e]] in
  enqueueOfflinePurviewTasksAsync accessToken etag name applicationId uploadTextMode
    downloadTextMode prompt response sessionId sequenceNo context P s
  = match (if up then thrown bU else None) with
    | Some e =>
        {| outcome := Thrown e; final := final bU;
           events := (events bU ++ caught e)%list |}
    | None =>
        match (if down then thrown bD else None) with
        | Some e =>
            {| outcome := Thrown e; final := final bD;
               events := ((if up then events bU else []) ++ events bD ++ caught e)%list |}
        | None =>
            {| outcome := Returned "OK";
               final := if down then final bD else s2;
               events := ((if up then events bU else [])
                            ++ (if down then events bD else []))%list |}
        end
    end.
Proof.
  intros up down bU s2 bD caught.
  rewrite enqueueOfflinePurviewTasksAsync_unfold. fold up down.
  subst s2 bD. destruct up; unfold when.
  - destruct bU as [oU fU evU] eqn:EU. unfold thrown. cbn [outcome final events].
    destruct oU as [[]|eU].
    + destruct down.
      * match goal with
        | |- context [submitBranch ?a ?b ?c ?d ?e ?f ?g ?h ?i ?j P fU] =>
            destruct (submitBranch a b c d e f g h i j P fU) as [oD fD evD] eqn:ED
        end.
        cbn [outcome final events].
        destruct oD as [[]|eD].
        -- erewrite try_catch_returned;
             [| erewrite bind_returned by exact EU;
                erewrite bind_returned by exact ED; reflexivity].
           tidy. rewrite <- ?app_assoc. reflexivity.
        -- erewrite try_catch_thrown;
             [| erewrite bind_returned by exact EU;
                erewrite bind_thrown by exact ED; reflexivity].
           tidy. rewrite <- ?app_assoc. reflexivity.
      * erewrite try_catch_returned;
          [| erewrite bind_returned by exact EU;
             erewrite bind_returned by reflexivity; reflexivity].
        tidy. rewrite <- ?app_assoc. reflexivity.
    + erewrite try_catch_thrown; [| erewrite bind_thrown by exact EU; reflexivity].
      tidy. rewrite <- ?app_assoc. reflexivity.
  - destruct down.
    + match goal with
      | |- context [submitBranch ?a ?b ?c ?d ?e ?f ?g ?h ?i ?j P s] =>
          destruct (submitBranch a b c d e f g h i j P s) as [oD fD evD] eqn:ED
      end.
      unfold thrown. cbn [outcome final events].
      destruct oD as [[]|eD].
      * erewrite try_catch_returned;
          [| erewrite bind_returned by reflexivity;
             erewrite bind_returned by exact ED; reflexivity].
        tidy. rewrite <- ?app_assoc. reflexivity.
      * erewrite try_catch_thrown;
          [| erewrite bind_returned by reflexivity;
             erewrite bind_thrown by exact ED; reflexivity].
        tidy. rewrite <- ?app_assoc. reflexivity.
    + erewrite try_catch_returned;
        [| erewrite bind_returned by reflexivity;
           erewrite bind_returned by reflexivity; reflexivity].
      tidy. rewrite <- ?app_assoc. reflexivity.
Qed.

(** A branch while the base URL is absent or empty: the submission is
    attempted and fails before anything is sent. *)
Lemma submitBranch_unconfigured
  (accessToken : string) (etag : option string)
  (content name : string) (sequenceNo : Z) (sessionId activity applicationId : string)
  (said : string * string * string * string) (context : InvocationContext)
  (P : Platform) (s : State) :
  Js.truthy_opt (env P "PURVIEW_BASE_URL") = false ->
  let b := submitBranch accessToken etag content name sequenceNo sessionId activity
             applicationId said context P s in
  length (submissions (events b)) = 1%nat
  /\ fetches (events b) = []
  /\ thrown b = Some missing_purview_base_url.
Proof.
  intros Hcfg.
  destruct said as [[[handling requestLine] bodyLine] headersLine].
  destruct (submitBranch_eq accessToken etag content name sequenceNo sessionId activity
              applicationId handling requestLine bodyLine headersLine context P s)
    as (identifier & _ & EB).
  cbv zeta in EB. cbv zeta. rewrite EB. clear EB.
  match goal with
  | |- context [invokeProcessContentApi accessToken etag ?d P ?s1] =>
      destruct (purview_unconfigured accessToken etag d P s1 Hcfg) as (_ & E)
  end.
  rewrite E. unfold thrown.
  cbn [outcome final events app submissions fetches length]. repeat split.
Qed.

(** A branch logs an error exactly when its submission fails: the client
    does, on the console. *)
Lemma submitBranch_errors_logged
  (accessToken : string) (etag : option string)
  (content name : string) (sequenceNo : Z) (sessionId activity applicationId : string)
  (said : string * string * string * string) (context : InvocationContext)
  (P : Platform) (s : State) :
  let b := submitBranch accessToken etag content name sequenceNo sessionId activity
             applicationId said context P s in
  errors_logged (events b)
  = match thrown b with Some e => [(Console_error, e)] | None => [] end.
Proof.
  destruct said as [[[handling requestLine] bodyLine] headersLine].
  destruct (submitBranch_eq accessToken etag content name sequenceNo sessionId activity
              applicationId handling requestLine bodyLine headersLine context P s)
    as (identifier & _ & EB).
  cbv zeta in EB. cbv zeta. rewrite EB. clear EB.
  match goal with
  | |- context [invokeProcessContentApi accessToken etag ?d P ?s1] =>
      destruct (purview_errors_logged accessToken etag d P s1) as (_ & E);
      destruct (invokeProcessContentApi accessToken etag d P s1) as [o f evs]
  end.
  unfold thrown in *. cbn [outcome final events] in *.
  rewrite !errors_logged_app, E.
  destruct o as [r|e]; cbn [errors_logged arg_errors map app]; rewrite ?app_nil_r;
    reflexivity.
Qed.

(** The document a branch submits is the one the builder returns in the
    state the branch starts in. *)
Lemma documentBuilt_eq
  (content name : string) (sequenceNo : Z) (sessionId activity applicationId : string)
  (P : Platform) (s : State) (identifier : string) :
  outcome (generateGuid P s) = Returned identifier ->
  documentBuilt content name sequenceNo sessionId activity applicationId P s
  = processContentDocument content name sequenceNo sessionId activity applicationId
      identifier (Js.toISOString (Date_now P (clock_pos s)))
      (Js.toISOString (Date_now P (S (clock_pos s)))).
Proof.
  intros G. destruct (generateGuid_run P s) as [guid [E _]].
  rewrite E in G. cbn [outcome] in G. injection G as ->.
  unfold documentBuilt, constructProcessContentRequestBody, bind. rewrite E.
  reflexivity.
Qed.

(** A branch while the base URL is configured, with the document and the
    request named: the document built in the start state is submitted, the
    request that carries it is sent, and the branch ends the way that
    request ends. *)
Lemma submitBranch_sent
  (accessToken base : string) (etag : option string)
  (content name : string) (sequenceNo : Z) (sessionId activity applicationId : string)
  (said : string * string * string * string) (context : InvocationContext)
  (P : Platform) (s : State) :
  env P "PURVIEW_BASE_URL" = Some base ->
  Js.truthy base = true ->
  let doc := documentBuilt content name sequenceNo sessionId activity applicationId P s in
  let req := processContentRequest accessToken etag base doc in
  let b := submitBranch accessToken etag content name sequenceNo sessionId activity
             applicationId said context P s in
  describes content activity sequenceNo doc = true
  /\ submissions (events b) = [(etag, doc)]
  /\ fetches (events b) = [req]
  /\ final b = afterSubmission s
  /\ thrown b = match network P (fetch_pos s) req with
                | Rejected e => Some e
                | Resolved r => if ok r then None else Some (api_error r)
                end
  /\ errors_logged (events b)
     = match thrown b with Some e => [(Console_error, e)] | None => [] end.
Proof.
  intros Henv Hbase.
  pose proof (submitBranch_errors_logged accessToken etag content name sequenceNo
                sessionId activity applicationId said context P s) as L.
  cbv zeta in L. revert L.
  destruct said as [[[handling requestLine] bodyLine] headersLine].
  destruct (submitBranch_eq accessToken etag content name sequenceNo sessionId activity
              applicationId handling requestLine bodyLine headersLine context P s)
    as (identifier & EB).
  cbv zeta in EB. destruct EB as (G & EB). cbv zeta. rewrite EB. clear EB.
  rewrite (documentBuilt_eq content name sequenceNo sessionId activity applicationId
             P s identifier G).
  intros L.
  split; [rewrite describes_document, !String.eqb_refl, Z.eqb_refl; reflexivity|].
  split; [|split; [|split; [|split; [|exact L]]]]; clear L;
    rewrite (invokeProcessContentApi_configured accessToken base etag _ P _ Henv Hbase);
    cbv zeta; cbn [fetch_pos];
    (destruct (network P (fetch_pos s) _) as [e|r]; [|destruct (ok r)]);
    unfold thrown, afterSubmission, after_fetch;
    cbn [outcome final events app submissions fetches fetch_pos rand_pos clock_pos];
    reflexivity.
Qed.

(** X8.  While the base URL is configured, the requests the orchestrator
    puts on the network are its submissions, one request each and in the
    same order: a POST to the processContent endpoint whose body is the
    submitted document as [JSON.stringify] writes it and whose
    [If-None-Match] is the etag the orchestrator was given.  A submitted
    document is the prompt at [sequenceNo] or the response at the
    JavaScript sum [sequenceNo + 1]. *)
Theorem enqueue_requests_follow_submissions
  (accessToken base : string) (etag : option string)
  (name applicationId uploadTextMode downloadTextMode prompt response sessionId : string)
  (sequenceNo : Z) (context : InvocationContext) (P : Platform) (s : State) :
  env P "PURVIEW_BASE_URL" = Some base ->
  Js.truthy base = true ->
  let r := enqueueOfflinePurviewTasksAsync accessToken etag name applicationId
             uploadTextMode downloadTextMode prompt response sessionId sequenceNo
             context P s in
  fetches (events r)
  = map (fun sub => processContentRequest accessToken etag base (snd sub))
      (submissions (events r))
  /\ Forall (fun sub => fst sub = etag) (submissions (events r))
  /\ Forall (fun req =>
               url req = Js.replace_trailing_slashes base
                           ++ "/me/dataSecurityAndGovernance/processContent"
               /\ Http.sent_header "If-None-Match" req = Some (supplied etag)
               /\ exists doc, req_body req = Some (Json.stringify doc)
                              /\ In (etag, doc) (submissions (events r)))
       (fetches (events r))
  /\ Forall (fun sub =>
               describes prompt "uploadText" sequenceNo (snd sub) = true
               \/ describes response "downloadText" (Js.plus sequenceNo 1) (snd sub) = true)
       (submissions (events r)).
Proof.
  intros Henv Hbase r.
  assert (shape : fetches (events r)
                  = map (fun sub => processContentRequest accessToken etag base (snd sub))
                      (submissions (events r))
                  /\ Forall (fun sub => fst sub = etag) (submissions (events r))
                  /\ Forall (fun sub =>
                               describes prompt "uploadText" sequenceNo (snd sub) = true
                               \/ describes response "downloadText"
                                    (Js.plus sequenceNo 1) (snd sub) = true)
                       (submissions (events r))).
  { subst r. rewrite enqueueOfflinePurviewTasksAsync_eq. cbv zeta.
    destruct (submitBranch_sent accessToken base etag prompt name sequenceNo
                sessionId "uploadText" applicationId uploadSaid context P s Henv Hbase)
      as (DU & SU & FU & _).
    cbv zeta in SU, FU.
    set (docU := documentBuilt prompt name sequenceNo sessionId "uploadText"
                   applicationId P s) in *.
    set (bU := submitBranch accessToken etag prompt name sequenceNo sessionId
                 "uploadText" applicationId uploadSaid context P s) in *.
    set (s2 := if String.eqb uploadTextMode "evaluateOffline" then final bU else s).
    destruct (submitBranch_sent accessToken base etag response name
                (Js.plus sequenceNo 1) sessionId "downloadText" applicationId downloadSaid
                context P s2 Henv Hbase)
      as (DD & SD & FD & _).
    cbv zeta in SD, FD.
    set (docD := documentBuilt response name (Js.plus sequenceNo 1) sessionId
                   "downloadText" applicationId P s2) in *.
    set (bD := submitBranch accessToken etag response name (Js.plus sequenceNo 1) sessionId
                 "downloadText" applicationId downloadSaid context P s2) in *.
    destruct (String.eqb uploadTextMode "evaluateOffline");
      destruct (String.eqb downloadTextMode "evaluateOffline");
      destruct (thrown bU); destruct (thrown bD);
      cbn [events];
      rewrite ?fetches_app, ?submissions_app, ?FU, ?FD, ?SU, ?SD;
      cbn [fetches submissions app map snd];
      (split; [reflexivity|]);
      (split; [repeat constructor|]);
      repeat (apply Forall_cons; [cbn [snd]; auto|]); apply Forall_nil. }
  destruct shape as (Hmap & Hetag & Hdoc).
  split; [exact Hmap|]. split; [exact Hetag|]. split; [|exact Hdoc].
  rewrite Hmap. apply Forall_forall. intros req Hin.
  apply in_map_iff in Hin. destruct Hin as ((e', doc) & <- & Hin).
  cbn [snd].
  split; [reflexivity|].
  split; [unfold Http.sent_header, processContentRequest; cbn;
          destruct etag as [[|c t]|]; reflexivity|].
  exists doc. split; [reflexivity|].
  rewrite Forall_forall in Hetag. specialize (Hetag _ Hin). cbn in Hetag.
  now subst e'.
Qed.

(** X9.  The base URL is only looked at when a submission is made: with
    [PURVIEW_BASE_URL] absent or empty and at least one mode set to
    "evaluateOffline", the orchestrator fails with the configuration error
    at its first submission, and nothing is sent. *)
Theorem enqueue_unconfigured
  (accessToken : string) (etag : option string)
  (name applicationId uploadTextMode downloadTextMode prompt response sessionId : string)
  (sequenceNo : Z) (context : InvocationContext) (P : Platform) (s : State) :
  uploadTextMode = "evaluateOffline" \/ downloadTextMode = "evaluateOffline" ->
  Js.truthy_opt (env P "PURVIEW_BASE_URL") = false ->
  let r := enqueueOfflinePurviewTasksAsync accessToken etag name applicationId
             uploadTextMode downloadTextMode prompt response sessionId sequenceNo
             context P s in
  outcome r = Thrown missing_purview_base_url
  /\ fetches (events r) = []
  /\ length (submissions (events r)) = 1%nat.
Proof.
  intros Hmode Hcfg r. subst r.
  destruct (String.eqb uploadTextMode "evaluateOffline") eqn:Hup;
    [|destruct (String.eqb downloadTextMode "evaluateOffline") eqn:Hdown];
    rewrite enqueueOfflinePurviewTasksAsync_eq; cbv zeta; rewrite ?Hup, ?Hdown;
    cbv iota.
  - destruct (submitBranch_unconfigured accessToken etag prompt name sequenceNo
                sessionId "uploadText" applicationId uploadSaid context P s Hcfg)
      as (LU & FU & TU).
    rewrite TU. cbn [outcome events].
    rewrite fetches_app, submissions_app, length_app, FU, LU. repeat split.
  - destruct (submitBranch_unconfigured accessToken etag response name (Js.plus sequenceNo 1)
                sessionId "downloadText" applicationId downloadSaid context P s Hcfg)
      as (LD & FD & TD).
    rewrite TD. cbn [outcome events].
    rewrite !fetches_app, !submissions_app, !length_app, FD, LD. repeat split.
  - exfalso. apply String.eqb_neq in Hup, Hdown. tauto.
Qed.


(** X10.  While the base URL is configured and the service accepts the
    requests the run sends it, the orchestrator returns "OK" after making
    exactly the submissions its modes ask for, the upload one before the
    download one, one request each, and logs no error.  The upload
    document is built in the start state at [sequenceNo]; the download
    document at the JavaScript sum [sequenceNo + 1], in the state the
    upload branch left when it ran. *)
Theorem enqueue_accepted
  (accessToken base : string) (etag : option string)
  (name applicationId uploadTextMode downloadTextMode prompt response sessionId : string)
  (sequenceNo : Z) (context : InvocationContext) (P : Platform) (s : State) :
  env P "PURVIEW_BASE_URL" = Some base ->
  Js.truthy base = true ->
  let up := String.eqb uploadTextMode "evaluateOffline" in
  let down := String.eqb downloadTextMode "evaluateOffline" in
  let from := if up then afterSubmission s else s in
  let docU := documentBuilt prompt name sequenceNo sessionId "uploadText"
                applicationId P s in
  let docD := documentBuilt response name (Js.plus sequenceNo 1) sessionId
                "downloadText" applicationId P from in
  let reqU := processContentRequest accessToken etag base docU in
  let reqD := processContentRequest accessToken etag base docD in
  (up = true -> accepts P (fetch_pos s) reqU = true) ->
  (down = true -> accepts P (fetch_pos from) reqD = true) ->
  let r := enqueueOfflinePurviewTasksAsync accessToken etag name applicationId
             uploadTextMode downloadTextMode prompt response sessionId sequenceNo
             context P s in
  outcome r = Returned "OK"
  /\ errors_logged (events r) = []
  /\ length (fetches (events r)) = length (submissions (events r))
  /\ describes prompt "uploadText" sequenceNo docU = true
  /\ describes response "downloadText" (Js.plus sequenceNo 1) docD = true
  /\ submissions (events r)
     = ((if up then [(etag, docU)] else []) ++ (if down then [(etag, docD)] else []))%list
  /\ fetches (events r)
     = ((if up then [reqU] else []) ++ (if down then [reqD] else []))%list.
Proof.
  intros Henv Hbase up down from docU docD reqU reqD HU HD r.
  destruct (submitBranch_sent accessToken base etag prompt name sequenceNo
              sessionId "uploadText" applicationId uploadSaid context P s Henv Hbase)
    as (DU & SU & FU & EU & TU & LU).
  cbv zeta in SU, FU, EU, TU, LU. fold docU in DU, SU, FU, TU. fold reqU in FU, TU.
  assert (Hfrom : (if up then final (submitBranch accessToken etag prompt name sequenceNo
                                       sessionId "uploadText" applicationId uploadSaid
                                       context P s)
                   else s) = from).
  { subst from. destruct up; [exact EU | reflexivity]. }
  destruct (submitBranch_sent accessToken base etag response name (Js.plus sequenceNo 1)
              sessionId "downloadText" applicationId downloadSaid context P from
              Henv Hbase)
    as (DD & SD & FD & _ & TD & LD).
  cbv zeta in SD, FD, TD, LD. fold docD in DD, SD, FD, TD. fold reqD in FD, TD.
  assert (TU' : up = true ->
                thrown (submitBranch accessToken etag prompt name sequenceNo sessionId
                          "uploadText" applicationId uploadSaid context P s) = None).
  { intros Hup. specialize (HU Hup). unfold accepts in HU. rewrite TU.
    destruct (network P (fetch_pos s) reqU) as [e|a]; [discriminate|].
    rewrite HU. reflexivity. }
  assert (TD' : down = true ->
                thrown (submitBranch accessToken etag response name (Js.plus sequenceNo 1)
                          sessionId "downloadText" applicationId downloadSaid context
                          P from) = None).
  { intros Hdown. specialize (HD Hdown). unfold accepts in HD. rewrite TD.
    destruct (network P (fetch_pos from) reqD) as [e|a]; [discriminate|].
    rewrite HD. reflexivity. }
  clear TU TD HU HD.
  subst r. rewrite enqueueOfflinePurviewTasksAsync_eq. cbv zeta.
  fold up down. rewrite Hfrom.
  destruct up eqn:Hup; destruct down eqn:Hdown;
    try (specialize (TU' eq_refl); rewrite TU' in LU |- *);
    try (specialize (TD' eq_refl); rewrite TD' in LD |- *);
    cbv iota; cbn [outcome events];
    rewrite ?errors_logged_app, ?fetches_app, ?submissions_app, ?length_app,
      ?LU, ?LD, ?FU, ?FD, ?SU, ?SD;
    repeat split; assumption.
Qed.

(** X11.  Nothing is taken back: when both modes are "evaluateOffline",
    the upload request is accepted and the download request is rejected by
    the transport, the run fails with that rejection while the upload
    request has gone out; both submissions and both requests are in the
    trace.  The download document carries the JavaScript sum
    [sequenceNo + 1]. *)
Theorem enqueue_no_rollback
  (accessToken base : string) (etag : option string)
  (name applicationId prompt response sessionId : string)
  (sequenceNo : Z) (context : InvocationContext) (P : Platform) (s : State) (e : Error) :
  env P "PURVIEW_BASE_URL" = Some base ->
  Js.truthy base = true ->
  let docU := documentBuilt prompt name sequenceNo sessionId "uploadText"
                applicationId P s in
  let docD := documentBuilt response name (Js.plus sequenceNo 1) sessionId
                "downloadText" applicationId P (afterSubmission s) in
  let reqU := processContentRequest accessToken etag base docU in
  let reqD := processContentRequest accessToken etag base docD in
  accepts P (fetch_pos s) reqU = true ->
  network P (S (fetch_pos s)) reqD = Rejected e ->
  let r := enqueueOfflinePurviewTasksAsync accessToken etag name applicationId
             "evaluateOffline" "evaluateOffline" prompt response sessionId sequenceNo
             context P s in
  outcome r = Thrown e
  /\ submitted prompt "uploadText" sequenceNo (events r) = true
  /\ submitted response "downloadText" (Js.plus sequenceNo 1) (events r) = true
  /\ length (submissions (events r)) = 2%nat
  /\ length (fetches (events r)) = 2%nat
  /\ submissions (events r) = [(etag, docU); (etag, docD)]
  /\ fetches (events r) = [reqU; reqD].
Proof.
  intros Henv Hbase docU docD reqU reqD Hfirst Hsecond r.
  destruct (submitBranch_sent accessToken base etag prompt name sequenceNo
              sessionId "uploadText" applicationId uploadSaid context P s Henv Hbase)
    as (DU & SU & FU & EU & TU & _).
  cbv zeta in SU, FU, EU, TU. fold docU in DU, SU, FU, TU. fold reqU in FU, TU.
  destruct (submitBranch_sent accessToken base etag response name (Js.plus sequenceNo 1)
              sessionId "downloadText" applicationId downloadSaid context P
              (afterSubmission s) Henv Hbase)
    as (DD & SD & FD & _ & TD & _).
  cbv zeta in SD, FD, TD. fold docD in DD, SD, FD, TD. fold reqD in FD, TD.
  assert (TU' : thrown (submitBranch accessToken etag prompt name sequenceNo sessionId
                          "uploadText" applicationId uploadSaid context P s) = None).
  { unfold accepts in Hfirst. rewrite TU.
    destruct (network P (fetch_pos s) reqU) as [e'|a]; [discriminate|].
    rewrite Hfirst. reflexivity. }
  change (fetch_pos (afterSubmission s)) with (S (fetch_pos s)) in TD.
  rewrite Hsecond in TD.
  subst r. rewrite enqueueOfflinePurviewTasksAsync_eq. cbv zeta.
  change (String.eqb "evaluateOffline" "evaluateOffline") with true. cbv iota.
  rewrite TU', EU, TD. cbn [outcome events]. unfold submitted.
  rewrite !submissions_app, !fetches_app, !length_app, SU, SD, FU, FD.
  cbn [submissions fetches app existsb snd length].
  rewrite DU, DD, orb_true_r. repeat split.
Qed.

(** X12.  A failure of the orchestrator is logged twice and never more,
    with the same error object both times: by the content-processing
    client on the console, then by the orchestrator on [context.error];
    a run that returns logs no error. *)
Theorem enqueue_errors_logged
  (accessToken : string) (etag : option string)
  (name applicationId uploadTextMode downloadTextMode prompt response sessionId : string)
  (sequenceNo : Z) (context : InvocationContext) (P : Platform) (s : State) :
  let r := enqueueOfflinePurviewTasksAsync accessToken etag name applicationId
             uploadTextMode downloadTextMode prompt response sessionId sequenceNo
             context P s in
  errors_logged (events r)
  = match thrown r with
    | Some e => [(Console_error, e); (Context_error context, e)]
    | None => []
    end.
Proof.
  intros r. subst r.
  pose proof (submitBranch_errors_logged accessToken etag prompt name sequenceNo
                sessionId "uploadText" applicationId uploadSaid context P s) as LU.
  cbv zeta in LU.
  set (from := if String.eqb uploadTextMode "evaluateOffline"
               then final (submitBranch accessToken etag prompt name sequenceNo
                             sessionId "uploadText" applicationId uploadSaid context P s)
               else s).
  pose proof (submitBranch_errors_logged accessToken etag response name (Js.plus sequenceNo 1)
                sessionId "downloadText" applicationId downloadSaid context P from)
    as LD.
  cbv zeta in LD. subst from.
  destruct (String.eqb uploadTextMode "evaluateOffline") eqn:Hup;
    destruct (String.eqb downloadTextMode "evaluateOffline") eqn:Hdown;
    rewrite enqueueOfflinePurviewTasksAsync_eq; cbv zeta; rewrite ?Hup, ?Hdown;
    cbv iota;
    repeat match goal with
           | |- context [match thrown (submitBranch ?a1 ?a2 ?a3 ?a4 ?a5 ?a6 ?a7 ?a8
                                                   ?a9 ?a10 P ?st) with _ => _ end] =>
               let T := fresh "T" in
               destruct (thrown (submitBranch a1 a2 a3 a4 a5 a6 a7 a8 a9 a10 P st))
                 eqn:T;
               try rewrite T in LU; try rewrite T in LD
           end;
    unfold thrown; cbn [outcome events];
    rewrite ?errors_logged_app, ?LU, ?LD;
    try reflexivity.
Qed.

(** X15.  Whatever the modes, the configuration and the transport, the
    orchestrator makes at most two submissions, no more than its modes
    ask for, and sends at most one request per submission it made. *)
Theorem enqueue_at_most_two_requests
  (accessToken : string) (etag : option string)
  (name applicationId uploadTextMode downloadTextMode prompt response sessionId : string)
  (sequenceNo : Z) (context : InvocationContext) (P : Platform) (s : State) :
  let r := enqueueOfflinePurviewTasksAsync accessToken etag name applicationId
             uploadTextMode downloadTextMode prompt response sessionId sequenceNo
             context P s in
  let asked (mode : string) := if String.eqb mode "evaluateOffline" then 1%nat else 0%nat in
  (length (fetches (events r)) <= length (submissions (events r)))%nat
  /\ (length (submissions (events r)) <= asked uploadTextMode + asked downloadTextMode)%nat
  /\ (length (submissions (events r)) <= 2)%nat.
Proof.
  intros r asked. subst asked.
  destruct (enqueueOfflinePurviewTasksAsync_run accessToken etag name applicationId
              uploadTextMode downloadTextMode prompt response sessionId sequenceNo
              context P s)
    as (docU & docD & _ & _ & _ & Hsub & _ & _ & _ & _ & Hlen).
  fold r in Hsub, Hlen.
  split; [exact Hlen|].
  rewrite Hsub, length_app.
  destruct (String.eqb uploadTextMode "evaluateOffline");
    destruct (String.eqb downloadTextMode "evaluateOffline");
    cbn [andb negb orb length];
    try (destruct (returned (uploadSubmission accessToken etag name applicationId
                               prompt sessionId sequenceNo P s)));
    cbn [length]; lia.
Qed.

(* ================================================================== *)
(** ** Identifiers and the digits they are made of *)
(* ================================================================== *)

Lemma drawn_digits_shape (tpl : string) (draws : nat -> Q) :
  (forall n, (0 <= draws n)%Q /\ (draws n < 1)%Q) ->
  forall n,
    Forall is_digit (drawn_digits tpl draws n)
    /\ length (drawn_digits tpl draws n) = draws_of tpl.
Proof.
  intros U. induction tpl as [|t tpl IH]; intros n; [split; [constructor | reflexivity]|].
  cbn [drawn_digits draws_of].
  destruct (U n) as [Hlo Hhi].
  pose proof (trunc_draw_range _ Hlo Hhi) as R.
  destruct (Ascii.eqb t "x"); [|destruct (Ascii.eqb t "y")]; cbn [orb].
  - destruct (IH (S n)) as [F L]. split; [constructor; assumption | cbn; now rewrite L].
  - destruct (IH (S n)) as [F L]. split; [|cbn; now rewrite L].
    constructor; [|assumption].
    unfold is_digit, Js.rem.
    pose proof (Z.rem_bound_pos (Js.Math_trunc (draws n * 16)) 4). lia.
  - apply IH.
Qed.

(** The loop is the template filled with the digits it draws. *)
Lemma generateGuid_loop_fill (P : Platform) (tpl : string) :
  forall guid s,
    generateGuid_loop tpl guid P s
    = {| outcome := Returned (guid ++ fill tpl (drawn_digits tpl (Math_random P)
                                                  (rand_pos s)));
         final := advance_rand (draws_of tpl) s;
         events := [] |}.
Proof.
  induction tpl as [|t tpl IH]; intros guid s.
  - cbn. now rewrite append_nil_r, advance_rand_zero.
  - cbn [generateGuid_loop drawn_digits fill draws_of].
    destruct (Ascii.eqb t "x") eqn:Hx; [|destruct (Ascii.eqb t "y") eqn:Hy];
      cbn [orb].
    + unfold bind, random. cbn [outcome final events app].
      rewrite IH. cbn [outcome final events rand_pos].
      rewrite advance_rand_succ, append_assoc. reflexivity.
    + unfold bind, random. cbn [outcome final events app].
      rewrite IH. cbn [outcome final events rand_pos].
      rewrite advance_rand_succ, append_assoc. reflexivity.
    + rewrite IH, append_assoc. reflexivity.
Qed.

Lemma hex_of_digit_inj (d1 d2 : Z) :
  is_digit d1 -> is_digit d2 ->
  Js.Number_toString16 d1 = Js.Number_toString16 d2 -> d1 = d2.
Proof.
  intros H1 H2.
  apply digit_cases in H1. apply digit_cases in H2.
  repeat (destruct H1 as [H1 | H1]); subst d1;
    repeat (destruct H2 as [H2 | H2]); subst d2;
    intros E; first [reflexivity | discriminate E].
Qed.

(** Filling the template with two lists of digits gives the same string
    only for the same digits. *)
Lemma fill_inj (tpl : string) :
  forall ds1 ds2,
    Forall is_digit ds1 -> Forall is_digit ds2 ->
    length ds1 = draws_of tpl -> length ds2 = draws_of tpl ->
    fill tpl ds1 = fill tpl ds2 -> ds1 = ds2.
Proof.
  induction tpl as [|t tpl IH]; intros ds1 ds2 F1 F2 L1 L2 E.
  - destruct ds1, ds2; try discriminate; reflexivity.
  - cbn [fill draws_of] in *.
    destruct (Ascii.eqb t "x" || Ascii.eqb t "y").
    + destruct ds1 as [|d1 ds1]; [discriminate|].
      destruct ds2 as [|d2 ds2]; [discriminate|].
      inversion F1 as [|? ? D1 F1']; subst. inversion F2 as [|? ? D2 F2']; subst.
      destruct (hex_of_digit d1 D1) as [c1 [E1 _]].
      destruct (hex_of_digit d2 D2) as [c2 [E2 _]].
      rewrite E1, E2 in E. cbn in E. inversion E as [[Ec Er]].
      assert (d1 = d2).
      { apply hex_of_digit_inj; try assumption. rewrite E1, E2. now subst. }
      subst d2. f_equal.
      apply IH; auto.
    + inversion E as [Er]. apply IH; auto.
Qed.

(** X13.  The identifier of the content entry is what [generateGuid]
    gives from the state the builder starts in, whatever the arguments
    are (the application id plays no part in it); with draws from the
    unit interval it has the 36-character shape of the template. *)
Theorem document_identifier
  (contentData name : string) (sequenceNo : Z) (correlationId activity applicationId : string)
  (P : Platform) (s : State) :
  exists guid doc,
    outcome (generateGuid P s) = Returned guid
    /\ outcome (constructProcessContentRequestBody contentData name sequenceNo
                  correlationId activity applicationId P s) = Returned doc
    /\ Json.path p_identifier doc = Some (JStr guid)
    /\ (unit_draws P -> follows template guid = true /\ String.length guid = 36%nat).
Proof.
  destruct (generateGuid_run P s) as [guid [EG F]].
  exists guid. eexists.
  split; [rewrite EG; reflexivity|].
  split; [unfold constructProcessContentRequestBody, bind; rewrite EG; reflexivity|].
  split; [reflexivity|].
  intros U. split; [exact (F U)|].
  exact (follows_length _ _ (F U)).
Qed.

(** X14.  Two identifiers are equal exactly when the 31 digits they were
    made of are: 30 hexadecimal digits and the variant digit.  Nothing of
    what is drawn is lost before the rendering, and nothing else goes
    into an identifier. *)
Theorem generateGuid_injective (P1 P2 : Platform) (s1 s2 : State) :
  unit_draws P1 -> unit_draws P2 ->
  (outcome (generateGuid P1 s1) = outcome (generateGuid P2 s2)
   <-> drawn_digits template (Math_random P1) (rand_pos s1)
       = drawn_digits template (Math_random P2) (rand_pos s2)).
Proof.
  intros U1 U2. unfold generateGuid.
  rewrite !generateGuid_loop_fill. cbn [outcome append].
  destruct (drawn_digits_shape template _ U1 (rand_pos s1)) as [F1 L1].
  destruct (drawn_digits_shape template _ U2 (rand_pos s2)) as [F2 L2].
  split.
  - intros E. inversion E as [E'].
    exact (fill_inj template _ _ F1 F2 L1 L2 E').
  - intros E. now rewrite E.
Qed.

(* ================================================================== *)
(** ** More concrete runs *)
(* ================================================================== *)

Lemma label_operations_response_witness :
  outcome (invokeUserRightsForLables "token" Sample.context Sample.up initial)
  = Returned "{}"
  /\ outcome (invokeUserRightsForSubLables "token" "label-1" Sample.context Sample.down
                initial)
     = Thrown (new_Error "LabelInfo call failed - 403: Forbidden")
  /\ outcome (invokeLabelInheritance "token" ["id-1"; "id-2"] Sample.context Cases.terse
                initial)
     = Returned "done".
Proof.
  pose proof (label_operations_response "token" "label-1" ["id-1"; "id-2"] Sample.context
                Sample.up initial Sample.accepted) as H1.
  pose proof (label_operations_response "token" "label-1" ["id-1"; "id-2"] Sample.context
                Sample.down initial Sample.refused) as H2.
  pose proof (label_operations_response "token" "label-1" ["id-1"; "id-2"] Sample.context
                Cases.terse initial Cases.plain) as H3.
  cbv beta zeta in H1, H2, H3.
  destruct H1 as (H1 & _ & _). destruct H2 as (_ & H2 & _). destruct H3 as (_ & _ & H3).
  split; [exact (H1 eq_refl)|]. split; [exact (H2 eq_refl) | exact (H3 eq_refl)].
Defined.

Lemma label_operations_default_base_witness :
  map url (fetches (events
             (invokeUserRightsForSubLables "token" "label-1" Sample.context Cases.blank
                initial)))
  = ["https://graph.microsoft.com/v1.0/security/dataSecurityAndGovernance/sensitivityLabels/label-1/rights"]
  /\ map url (fetches (events
                (invokeUserRightsForLables "token" Sample.context Sample.bare initial)))
     = ["https://graph.microsoft.com/v1.0/security/dataSecurityAndGovernance/sensitivityLabels?$expand=rights,sublabels"].
Proof.
  destruct (label_operations_default_base "token" "label-1" ["id-1"] Sample.context
              Cases.blank initial
              (or_intror (ex_intro _ 3%nat eq_refl))) as (_ & H1 & _).
  destruct (label_operations_default_base "token" "label-1" ["id-1"] Sample.context
              Sample.bare initial (or_introl eq_refl)) as (H2 & _ & _).
  split; assumption.
Defined.

Lemma empty_base_url_is_fatal_witness :
  env Cases.blank "PURVIEW_BASE_URL" = Some ""
  /\ outcome (invokeProtectionScopeApi "token" Cases.blank initial)
     = Thrown missing_purview_base_url
  /\ fetches (events (invokeProcessContentApi "token" (Some "abc") (JObj []) Cases.blank
                        initial)) = [].
Proof.
  split; [reflexivity|].
  destruct (empty_base_url_is_fatal "token" (Some "abc") (JObj []) Cases.blank initial
              eq_refl) as (H1 & _ & _ & _ & H2 & _).
  split; assumption.
Defined.

Lemma transport_failure_propagates_witness :
  outcome (invokeProtectionScopeApi "token" Cases.offline initial)
  = Thrown Cases.unreachable
  /\ map url (fetches (events (invokeProtectionScopeApi "token" Cases.offline initial)))
     = ["https://purview.example/v1/me/dataSecurityAndGovernance/protectionScopes/compute"]
  /\ outcome (invokeLabelInheritance "token" ["id-1"] Sample.context Cases.offline initial)
     = Thrown Cases.unreachable.
Proof.
  pose proof (transport_failure_propagates "token" "label-1" ["id-1"] None (JObj [])
                Sample.context Cases.offline initial Cases.unreachable) as H.
  cbv beta zeta in H. destruct H as (H1 & _ & _ & _ & H5).
  destruct (H1 "https://purview.example/v1//" eq_refl eq_refl eq_refl) as (O1 & F1).
  destruct (H5 eq_refl) as (O5 & _).
  split; [exact O1|]. split; [rewrite F1; reflexivity | exact O5].
Defined.

Lemma process_content_response_witness :
  outcome (invokeProcessContentApi "token" None (JObj []) Cases.terse initial)
  = Returned {| content_body := "done";
                content_headers := [("x-ms-result", "allowed")] |}.
Proof.
  exact (process_content_response "token" "https://purview.example/v1//" None (JObj [])
           Cases.terse initial Cases.plain eq_refl eq_refl eq_refl).
Defined.

Lemma enqueue_requests_follow_submissions_witness :
  let r := enqueueOfflinePurviewTasksAsync "token" (Some "abc") "app" "app-id"
             "evaluateOffline" "evaluateOffline" "hello" "world" "sess-1" 3
             Sample.context Sample.up initial in
  fetches (events r)
  = map (fun sub => processContentRequest "token" (Some "abc")
                      "https://purview.example/v1//" (snd sub))
      (submissions (events r)).
Proof.
  exact (proj1 (enqueue_requests_follow_submissions "token"
                  "https://purview.example/v1//" (Some "abc") "app" "app-id"
                  "evaluateOffline" "evaluateOffline" "hello" "world" "sess-1" 3
                  Sample.context Sample.up initial eq_refl eq_refl)).
Defined.

Lemma enqueue_unconfigured_witness :
  let r := enqueueOfflinePurviewTasksAsync "token" (Some "abc") "app" "app-id"
             "skip" "evaluateOffline" "hello" "world" "sess-1" 3
             Sample.context Sample.bare initial in
  outcome r = Thrown missing_purview_base_url
  /\ fetches (events r) = []
  /\ length (submissions (events r)) = 1%nat.
Proof.
  exact (enqueue_unconfigured "token" (Some "abc") "app" "app-id"
           "skip" "evaluateOffline" "hello" "world" "sess-1" 3
           Sample.context Sample.bare initial (or_intror eq_refl) eq_refl).
Defined.

Lemma enqueue_accepted_witness :
  let r := enqueueOfflinePurviewTasksAsync "token" (Some "abc") "app" "app-id"
             "evaluateOffline" "evaluateOffline" "hello" "world" "sess-1" 3
             Sample.context Sample.up initial in
  outcome r = Returned "OK"
  /\ errors_logged (events r) = []
  /\ length (fetches (events r)) = 2%nat
  /\ map (fun sub => Json.path p_sequenceNumber (snd sub)) (submissions (events r))
     = [Some (JNum 3); Some (JNum 4)].
Proof.
  destruct (enqueue_accepted "token" "https://purview.example/v1//" (Some "abc") "app"
              "app-id" "evaluateOffline" "evaluateOffline" "hello" "world" "sess-1" 3
              Sample.context Sample.up initial eq_refl eq_refl
              (fun _ => eq_refl) (fun _ => eq_refl))
    as (H1 & H2 & _ & _ & _ & H3 & H4).
  split; [exact H1|]. split; [exact H2|].
  split; [rewrite H4; reflexivity | rewrite H3; reflexivity].
Defined.

Lemma enqueue_no_rollback_witness :
  let r := enqueueOfflinePurviewTasksAsync "token" (Some "abc") "app" "app-id"
             "evaluateOffline" "evaluateOffline" "hello" "world" "sess-1" 3
             Sample.context Cases.half initial in
  outcome r = Thrown Cases.unreachable
  /\ submitted "hello" "uploadText" 3 (events r) = true
  /\ submitted "world" "downloadText" 4 (events r) = true
  /\ length (submissions (events r)) = 2%nat
  /\ length (fetches (events r)) = 2%nat.
Proof.
  destruct (enqueue_no_rollback "token" "https://purview.example/v1//" (Some "abc") "app"
              "app-id" "hello" "world" "sess-1" 3 Sample.context Cases.half initial
              Cases.unreachable eq_refl eq_refl eq_refl eq_refl)
    as (H1 & H2 & H3 & H4 & H5 & _).
  repeat split; assumption.
Defined.

(** The sample draws come round after sixteen: the identifier drawn from
    position 16 is the one drawn from position 0. *)
Lemma generateGuid_injective_witness :
  outcome (generateGuid Sample.up initial)
  = outcome (generateGuid Sample.up
               {| rand_pos := 16; clock_pos := 0; fetch_pos := 0 |}).
Proof.
  apply (generateGuid_injective Sample.up Sample.up initial
           {| rand_pos := 16; clock_pos := 0; fetch_pos := 0 |}).
  - intros n. unfold Sample.up, Sample.platform, Qle, Qlt.
    cbn [Math_random]. unfold Sample.draws. cbn [Qnum Qden].
    pose proof (Nat.mod_upper_bound n 16). lia.
  - intros n. unfold Sample.up, Sample.platform, Qle, Qlt.
    cbn [Math_random]. unfold Sample.draws. cbn [Qnum Qden].
    pose proof (Nat.mod_upper_bound n 16). lia.
  - vm_compute. reflexivity.
Defined.
